(** * DuckshotAnalytics: the agent execution framework

    A shallow embedding of the Python agent pipeline
    ([python_agents/agents], [python_agents/services],
    [python_agents/plugins] and the validation and safety agents of
    [agent-service/adk/services]) together with the properties of its
    hook dispatch, stage sequencing and error propagation.

    Python code is embedded as state-passing functions: a call either
    returns a value or raises an exception, and it may change the state
    it runs over.  Exceptions are the instances of Python's [Exception]
    class (the ones the [except Exception] clause of [Agent.execute]
    catches); interpreter-level signals such as [KeyboardInterrupt] are
    outside the model.  [async]/[await] is read sequentially: one run
    is one logical task and every [await] is a blocking call. *)

From Stdlib Require Import ZArith QArith String Ascii List Sorted Lia.
From stdpp Require Import base option list gmap strings pretty.

Set Warnings "-register-all".

Open Scope string_scope.
Open Scope list_scope.
Open Scope Z_scope.

(** ** Python values *)

(** The values that flow through the pipeline: what [json.loads] can
    produce and what the mock services build.  A float is recorded by
    the decimal it is written as; a dict keeps its items in insertion
    order. *)
Inductive pyval : Type :=
| VNone
| VBool (b : bool)
| VInt (n : Z)
| VFloat (q : Q)
| VStr (s : string)
| VList (items : list pyval)
| VDict (entries : list (string * pyval)).

(** Python's truth value testing ([bool(v)], what [not v] negates). *)
Definition truthy (v : pyval) : bool :=
  match v with
  | VNone => false
  | VBool b => b
  | VInt n => negb (n =? 0)
  | VFloat q => negb (Qnum q =? 0)
  | VStr s => negb (String.eqb s "")
  | VList items => match items with [] => false | _ => true end
  | VDict entries => match entries with [] => false | _ => true end
  end.

(** [d.get(key)] on the items of a dict: the value stored under [key],
    if any. *)
Fixpoint dict_lookup (key : string) (entries : list (string * pyval)) : option pyval :=
  match entries with
  | [] => None
  | (k, v) :: rest => if String.eqb k key then Some v else dict_lookup key rest
  end.

(** [isinstance(v, str)]. *)
Definition is_str (v : pyval) : bool :=
  match v with VStr _ => true | _ => false end.

(** Truth value of an [Optional[str]] attribute. *)
Definition opt_str_truthy (o : option string) : bool :=
  match o with
  | None => false
  | Some s => negb (String.eqb s "")
  end.

(** The string behind an [Optional[str]] attribute that is set. *)
Definition str_value (o : option string) : string :=
  match o with
  | Some s => s
  | None => ""
  end.

(** ** Exceptions and outcomes *)

Inductive exc_class : Type :=
| Exception_
| ValueError
| AttributeError
| JSONDecodeError
| UnicodeDecodeError
| RecursionError.

(** An exception instance: its class and [str(error)]. *)
Record exc : Type := Exc { exc_type : exc_class; exc_message : string }.

(** [type(error).__name__]. *)
Definition exc_type_name (c : exc_class) : string :=
  match c with
  | Exception_ => "Exception"
  | ValueError => "ValueError"
  | AttributeError => "AttributeError"
  | JSONDecodeError => "JSONDecodeError"
  | UnicodeDecodeError => "UnicodeDecodeError"
  | RecursionError => "RecursionError"
  end.

Inductive Outcome (A : Type) : Type :=
| Returned (a : A)
| Raised (e : exc).
Arguments Returned {A} a.
Arguments Raised {A} e.

(** ** Two small monads

    [Body St A] is a piece of Python code running over a state [St]:
    it returns or raises, and leaves a new state.  [Traced St Ev A]
    additionally records the calls it performs as a list of events
    (an observation of the run; the Python code has no such list). *)

Definition Body (St A : Type) : Type := St -> Outcome A * St.
Definition Traced (St Ev A : Type) : Type := St -> Outcome A * St * list Ev.

Module Body.
Definition ret {St A} (a : A) : Body St A := fun s => (Returned a, s).
Definition raise {St A} (e : exc) : Body St A := fun s => (Raised e, s).
Definition bind {St A B} (m : Body St A) (k : A -> Body St B) : Body St B :=
  fun s => match m s with
           | (Returned a, s1) => k a s1
           | (Raised e, s1) => (Raised e, s1)
           end.
End Body.

Module Traced.
Definition ret {St Ev A} (a : A) : Traced St Ev A := fun s => (Returned a, s, []).
Definition raise {St Ev A} (e : exc) : Traced St Ev A := fun s => (Raised e, s, []).
Definition bind {St Ev A B} (m : Traced St Ev A) (k : A -> Traced St Ev B)
  : Traced St Ev B :=
  fun s => match m s with
           | (Returned a, s1, t1) =>
               let '(o, s2, t2) := k a s1 in (o, s2, t1 ++ t2)
           | (Raised e, s1, t1) => (Raised e, s1, t1)
           end.
(** Record one event. *)
Definition emit {St Ev} (ev : Ev) : Traced St Ev unit :=
  fun s => (Returned tt, s, [ev]).
(** Run untraced code. *)
Definition call {St Ev A} (m : Body St A) : Traced St Ev A :=
  fun s => let '(o, s1) := m s in (o, s1, []).
(** The code alone, without the record of its calls. *)
Definition forget {St Ev A} (m : Traced St Ev A) : Body St A :=
  fun s => let '(o, s1, _) := m s in (o, s1).
(** [try: m except Exception as error: handler error]. *)
Definition try_except {St Ev A} (m : Traced St Ev A) (handler : exc -> Traced St Ev A)
  : Traced St Ev A :=
  fun s => match m s with
           | (Returned a, s1, t1) => (Returned a, s1, t1)
           | (Raised e, s1, t1) =>
               let '(o, s2, t2) := handler e s1 in (o, s2, t1 ++ t2)
           end.
End Traced.

Declare Scope body_scope.
Delimit Scope body_scope with body.
Notation "x <- m ;; k" := (Body.bind m (fun x => k))
  (at level 100, m at next level, right associativity) : body_scope.
Notation "m ;; k" := (Body.bind m (fun _ => k))
  (at level 100, right associativity) : body_scope.

Declare Scope traced_scope.
Delimit Scope traced_scope with traced.
Notation "x <- m ;; k" := (Traced.bind m (fun x => k))
  (at level 100, m at next level, right associativity) : traced_scope.
Notation "m ;; k" := (Traced.bind m (fun _ => k))
  (at level 100, right associativity) : traced_scope.

(** ** The base agent ([python_agents/agents/base_agent.py]) *)

Section Framework.
Context {St Arg Res : Type}.

(** A plugin is any object; each of the three hooks may be missing
    (the dispatch probes with [hasattr]).  A hook receives the agent
    (here: its class name, all a hook of this repository reads) and
    the call's arguments, result or error. *)
Record Plugin : Type := {
  on_agent_start : option (string -> Arg -> Body St unit);
  on_agent_end : option (string -> Res -> Body St unit);
  on_agent_error : option (string -> exc -> Body St unit)
}.

Record Agent : Type := {
  class_name : string;
  run : Arg -> Body St Res;
  _plugins : list Plugin
}.

Definition add_plugin (self : Agent) (plugin : Plugin) : Agent :=
  {| class_name := class_name self;
     run := run self;
     _plugins := _plugins self ++ [plugin] |}.

(** What an observer of one [execute] call sees: which plugin (by its
    position in [_plugins]) had which hook called with which
    argument, and the call of [run]. *)
Inductive HookEvent : Type :=
| StartHook (i : nat) (args : Arg)
| RunCall (args : Arg)
| EndHook (i : nat) (result : Res)
| ErrorHook (i : nat) (error : exc).

(** [for plugin in self._plugins: if hasattr(plugin, h): plugin.h(...)],
    the plugins being numbered from [i]. *)
Fixpoint for_each_plugin (hook : Plugin -> option (Body St unit))
    (ev : nat -> HookEvent) (i : nat) (plugins : list Plugin)
  : Traced St HookEvent unit :=
  match plugins with
  | [] => Traced.ret tt
  | plugin :: rest =>
      match hook plugin with
      | Some h =>
          (Traced.emit (ev i) ;; Traced.call h ;;
           for_each_plugin hook ev (S i) rest)%traced
      | None => for_each_plugin hook ev (S i) rest
      end
  end.

Definition start_hook (self : Agent) (args : Arg) (p : Plugin) : option (Body St unit) :=
  match on_agent_start p with
  | Some h => Some (h (class_name self) args)
  | None => None
  end.

Definition end_hook (self : Agent) (result : Res) (p : Plugin) : option (Body St unit) :=
  match on_agent_end p with
  | Some h => Some (h (class_name self) result)
  | None => None
  end.

Definition error_hook (self : Agent) (error : exc) (p : Plugin) : option (Body St unit) :=
  match on_agent_error p with
  | Some h => Some (h (class_name self) error)
  | None => None
  end.

Definition _trigger_start (self : Agent) (args : Arg) : Traced St HookEvent unit :=
  for_each_plugin (start_hook self args) (fun i => StartHook i args) 0%nat (_plugins self).

Definition _trigger_end (self : Agent) (result : Res) : Traced St HookEvent unit :=
  for_each_plugin (end_hook self result) (fun i => EndHook i result) 0%nat (_plugins self).

Definition _trigger_error (self : Agent) (error : exc) : Traced St HookEvent unit :=
  for_each_plugin (error_hook self error) (fun i => ErrorHook i error) 0%nat (_plugins self).

Definition execute (self : Agent) (args : Arg) : Traced St HookEvent Res :=
  Traced.try_except
    (_trigger_start self args ;;
     result <- (Traced.emit (RunCall args) ;; Traced.call (run self args)) ;;
     _trigger_end self result ;;
     Traced.ret result)%traced
    (fun error =>
       (_trigger_error self error ;;
        Traced.raise error)%traced).

End Framework.

Arguments Plugin : clear implicits.
Arguments Agent : clear implicits.
Arguments HookEvent : clear implicits.

(** ** Library functions

    The pipeline calls into Python's standard library for JSON, text
    encodings and date formatting.  They are taken as given: a decoder
    either returns or raises, with the exception classes the pipeline's
    [except] clauses name. *)
Record PythonLib : Type := {
  (** [json.dumps(v)] *)
  json_dumps : pyval -> string;
  (** [json.loads(s)]; raises [JSONDecodeError] on malformed text *)
  json_loads : string -> Outcome pyval;
  (** [s.encode('utf-8')] *)
  str_encode : string -> list Byte.byte;
  (** [b.decode('utf-8')]; raises [UnicodeDecodeError] on malformed bytes *)
  bytes_decode : list Byte.byte -> Outcome string;
  (** [d.strftime("%Y-%m-%d")], [d] in seconds since the epoch *)
  strftime_ymd : Z -> string;
  (** [d.isoformat()] *)
  isoformat : Z -> string
}.

(** [f"{n}"] for an [int]. *)
Definition str_of_int (n : Z) : string := pretty n.

(** [type(v).__name__]. *)
Definition type_name (v : pyval) : string :=
  match v with
  | VNone => "NoneType"
  | VBool _ => "bool"
  | VInt _ => "int"
  | VFloat _ => "float"
  | VStr _ => "str"
  | VList _ => "list"
  | VDict _ => "dict"
  end.

(** [v.get(key)]: defined on dicts only, [None] when the key is
    missing. *)
Definition py_get (v : pyval) (key : string) : Outcome pyval :=
  match v with
  | VDict entries =>
      match dict_lookup key entries with
      | Some x => Returned x
      | None => Returned VNone
      end
  | _ => Raised (Exc AttributeError
                   ("'" +:+ type_name v +:+ "' object has no attribute 'get'"))
  end.

(** ** Storage service ([python_agents/services/storage.py]) *)

Record User : Type := {
  user_id : Z;
  username : string;
  snapchat_client_id : option string;
  snapchat_api_key : option string
}.

Record StorageService : Type := {
  _users : gmap Z User;
  _snapchat_data : gmap Z pyval;
  _ai_insights : gmap Z string
}.

Definition get_user (user_id : Z) : Body StorageService (option User) :=
  fun self => (Returned (_users self !! user_id), self).

Definition save_snapchat_data (user_id : Z) (data : pyval) : Body StorageService bool :=
  fun self =>
    (Returned true,
     {| _users := _users self;
        _snapchat_data := <[user_id := data]> (_snapchat_data self);
        _ai_insights := _ai_insights self |}).

Definition save_ai_insight (user_id : Z) (insight : string) : Body StorageService bool :=
  fun self =>
    (Returned true,
     {| _users := _users self;
        _snapchat_data := _snapchat_data self;
        _ai_insights := <[user_id := insight]> (_ai_insights self) |}).

Definition get_snapchat_data (user_id : Z) : Body StorageService (option pyval) :=
  fun self => (Returned (_snapchat_data self !! user_id), self).

Definition get_ai_insight (user_id : Z) : Body StorageService (option string) :=
  fun self => (Returned (_ai_insights self !! user_id), self).

(** ** The process state

    The module-level singletons the agents share: the [storage]
    instance, the artifact store, the logger's output, and the two
    sources the mock services read, [random] and the clock. *)

Record Artifact : Type := {
  artifact_name : string;
  artifact_content : list Byte.byte;
  artifact_mime_type : string
}.

Record LogRecord : Type := {
  log_level : string;
  log_message : string;
  log_context : list (string * string)
}.

Record Store : Type := {
  storage : StorageService;
  artifacts : list Artifact;
  log_records : list LogRecord;
  (** the draws [random] will deliver, next first *)
  random_tape : nat -> nat;
  (** the instants [datetime.now()] will deliver, next first *)
  clock_tape : nat -> Z
}.

(** A method of the global [storage] instance. *)
Definition on_storage {A} (m : Body StorageService A) : Body Store A :=
  fun st =>
    let '(o, sto) := m (storage st) in
    (o, {| storage := sto;
           artifacts := artifacts st;
           log_records := log_records st;
           random_tape := random_tape st;
           clock_tape := clock_tape st |}).

(** Modelled from the spec: [services/artifact_service.py]
    ([artifact_service.create]) is not among the sources.  Section 4.1:
    [create(name, content, mimeType)] always succeeds and returns a new
    artifact, which the store owns from then on. *)
Definition artifact_service_create (name : string) (content : list Byte.byte)
    (mime_type : string) : Body Store Artifact :=
  fun st =>
    let artifact := {| artifact_name := name;
                       artifact_content := content;
                       artifact_mime_type := mime_type |} in
    (Returned artifact,
     {| storage := storage st;
        artifacts := artifacts st ++ [artifact];
        log_records := log_records st;
        random_tape := random_tape st;
        clock_tape := clock_tape st |}).

(** ** Logger and logging plugin
    ([python_agents/logger.py], [python_agents/plugins/logging_plugin.py]) *)

Definition logger_emit (level message : string) (context : list (string * string))
  : Body Store unit :=
  fun st =>
    (Returned tt,
     {| storage := storage st;
        artifacts := artifacts st;
        log_records := log_records st ++
                       [{| log_level := level;
                           log_message := message;
                           log_context := context |}];
        random_tape := random_tape st;
        clock_tape := clock_tape st |}).

Definition logger_info := logger_emit "INFO".
Definition logger_error := logger_emit "ERROR".

Definition LoggingPlugin {Arg Res : Type} : Plugin Store Arg Res :=
  {| on_agent_start := Some (fun agent_name _ =>
       logger_info "Agent started" [("agent", agent_name)]);
     on_agent_end := Some (fun agent_name _ =>
       logger_info "Agent ended" [("agent", agent_name)]);
     on_agent_error := Some (fun agent_name error =>
       logger_error "Agent error"
         [("agent", agent_name);
          ("error", exc_message error);
          ("error_type", exc_type_name (exc_type error))]) |}.

(** ** Mock services
    ([python_agents/services/snapchat.py], [python_agents/services/gemini.py]) *)

(** One draw of the [random] module. *)
Definition random_draw : Body Store nat :=
  fun st =>
    (Returned (random_tape st 0%nat),
     {| storage := storage st;
        artifacts := artifacts st;
        log_records := log_records st;
        random_tape := fun n => random_tape st (S n);
        clock_tape := clock_tape st |}).

(** [random.randint(a, b)]: a draw in [a .. b]. *)
Definition random_randint (a b : Z) : Body Store Z :=
  (r <- random_draw ;;
   Body.ret (a + Z.of_nat r mod (b - a + 1)))%body.

(** [random.choice(seq)] for a non-empty [seq]. *)
Definition random_choice {A} (seq : list A) (default : A) : Body Store A :=
  (r <- random_draw ;;
   Body.ret (nth (r mod length seq)%nat seq default))%body.

(** [datetime.now()], in seconds since the epoch. *)
Definition datetime_now : Body Store Z :=
  fun st =>
    (Returned (clock_tape st 0%nat),
     {| storage := storage st;
        artifacts := artifacts st;
        log_records := log_records st;
        random_tape := random_tape st;
        clock_tape := fun n => clock_tape st (S n) |}).

(** [timedelta(days=n)]. *)
Definition timedelta_days (n : Z) : Z := n * 86400.

(** ** Orchestrator data *)

(** The six stages of a run, in order. *)
Inductive Stage : Type :=
| Fetch
| Analysis
| Validation
| Safety
| Evaluation
| Persistence.

Definition stage_index (s : Stage) : nat :=
  match s with
  | Fetch => 0
  | Analysis => 1
  | Validation => 2
  | Safety => 3
  | Evaluation => 4
  | Persistence => 5
  end.

(** What an observer of one orchestrator run sees of its stages: the
    sub-agent's [execute] is called, and it returns or raises. *)
Inductive StageEvent : Type :=
| StageCalled (s : Stage)
| StageReturned (s : Stage)
| StageRaised (s : Stage) (error : exc).

(** The dict the orchestrator returns. *)
Record Bundle : Type := {
  snapchatData : pyval;
  insights : string
}.

Record OrchestratorAgent (St : Type) : Type := {
  snapchat_fetcher : Agent St Z Artifact;
  data_analyzer : Agent St Artifact Artifact;
  test_agent : Agent St (pyval * pyval) bool;
  safety_agent : Agent St (pyval * pyval) bool;
  evaluation_agent : Agent St string bool;
  database_agent : Agent St (Z * pyval * string) bool;
  orchestrator_plugins : list (Plugin St Z Bundle)
}.
Arguments snapchat_fetcher {St} _.
Arguments data_analyzer {St} _.
Arguments test_agent {St} _.
Arguments safety_agent {St} _.
Arguments evaluation_agent {St} _.
Arguments database_agent {St} _.
Arguments orchestrator_plugins {St} _.

(** [await agent.execute(args)] as a stage of the run. *)
Definition stage {St Arg Res} (s : Stage) (agent : Agent St Arg Res) (args : Arg)
  : Traced St StageEvent Res :=
  fun st =>
    let '(o, st1, _) := execute agent args st in
    (o, st1,
     [StageCalled s;
      match o with
      | Returned _ => StageReturned s
      | Raised error => StageRaised s error
      end]).

Section Pipeline.
Context (lib : PythonLib).

(** [generate_followers_data]: the loop body for the remaining
    indices of [range(31)]. *)
Fixpoint followers_loop (base_date : Z) (indices : list nat) (data : list pyval)
  : Body Store (list pyval) :=
  match indices with
  | [] => Body.ret data
  | i :: rest =>
      let date := base_date + timedelta_days (Z.of_nat i) in
      (noise <- random_randint (-50) 50 ;;
       followers_loop base_date rest
         (data ++ [VDict [("date", VStr (strftime_ymd lib date));
                          ("followers", VInt (20000 + Z.of_nat i * 150 + noise))]]))%body
  end.

Definition generate_followers_data : Body Store (list pyval) :=
  (now <- datetime_now ;;
   let base_date := now - timedelta_days 30 in
   followers_loop base_date (seq 0 31) [])%body.

Definition content_row (id title date : string) (views completion screenshots shares : Z)
  : pyval :=
  VDict [("id", VStr id); ("title", VStr title); ("date", VStr date);
         ("views", VInt views); ("completion", VInt completion);
         ("screenshots", VInt screenshots); ("shares", VInt shares)].

Definition demographics_row (age_range : string) (percentage : Z) : pyval :=
  VDict [("ageRange", VStr age_range); ("percentage", VInt percentage)].

Definition fetch_snapchat_data (client_id api_key : string) : Body Store pyval :=
  if negb (truthy (VStr client_id)) || negb (truthy (VStr api_key))
  then Body.raise (Exc ValueError "Invalid Snapchat API credentials")
  else
    (last_updated <- datetime_now ;;
     followers <- generate_followers_data ;;
     Body.ret (VDict [
       ("totalFollowers", VInt 24583);
       ("followerGrowth", VFloat 12.3);
       ("totalStoryViews", VInt 15942);
       ("storyViewsGrowth", VFloat 8.7);
       ("engagementRate", VFloat 5.2);
       ("engagementRateChange", VFloat (-2.1));
       ("completionRate", VFloat 78.3);
       ("completionRateChange", VFloat 3.5);
       ("lastUpdated", VStr (isoformat lib last_updated));
       ("followers", VList followers);
       ("demographics", VList [
          demographics_row "18-24" 45;
          demographics_row "25-34" 30;
          demographics_row "35-44" 15;
          demographics_row "45+" 10]);
       ("content", VList [
          content_row "1" "Summer Party Snap" "2023-07-24" 8452 85 214 126;
          content_row "2" "Beach Day" "2023-07-22" 7128 72 178 94;
          content_row "3" "New Product Reveal" "2023-07-20" 9834 91 412 203;
          content_row "4" "Behind The Scenes" "2023-07-18" 6453 68 145 87;
          content_row "5" "Q&A Session" "2023-07-16" 5892 79 201 156])]))%body.

Definition insights_pool : list string := [
  "Your audience engagement is strongest on content posted between 6-8pm. Consider scheduling more posts during this timeframe for maximum reach.";
  "Your 'New Product Reveal' had the highest completion rate at 91%. This suggests your audience is interested in exclusive product announcements. Consider creating more content around product launches.";
  "Your follower growth rate of 12.3% is above industry average. Your consistent posting schedule seems to be working well for audience retention.";
  "18-24 year olds make up 45% of your audience. Your content resonates well with Gen Z. Consider incorporating more trending topics popular with this demographic.";
  "While your engagement rate of 5.2% is solid, there's been a 2.1% decrease recently. Try experimenting with more interactive content like polls or questions to boost engagement.";
  "Screenshots are highest on your product-related content, suggesting your audience wants to save this information for later. Consider adding clear calls-to-action for these types of posts.";
  "Your story completion rate of 78.3% is excellent. Keep your stories concise and engaging to maintain this high retention rate.";
  "Based on your recent performance, creating more behind-the-scenes content could help improve your engagement metrics and attract new followers."
].

Definition generate_ai_insight (snapchat_data : pyval) : Body Store string :=
  random_choice insights_pool "".

(** ** Decoding an artifact

    [json.loads(artifact.content.decode('utf-8'))] inside
    [try ... except (json.JSONDecodeError, UnicodeDecodeError)], as
    both the analysis agent and the orchestrator write it. *)

Definition loads_content (content : list Byte.byte) : Outcome pyval :=
  match bytes_decode lib content with
  | Returned text => json_loads lib text
  | Raised error => Raised error
  end.

Definition is_decode_error (c : exc_class) : bool :=
  match c with
  | JSONDecodeError | UnicodeDecodeError => true
  | _ => false
  end.

Definition parse_snapchat_artifact {St} (artifact : Artifact) : Body St pyval :=
  match loads_content (artifact_content artifact) with
  | Returned snapchat_data => Body.ret snapchat_data
  | Raised error =>
      if is_decode_error (exc_type error)
      then Body.raise (Exc ValueError
             ("Invalid Snapchat data format in artifact: " +:+ exc_message error))
      else Body.raise error
  end.

(** [content.decode('utf-8')] outside any [try]. *)
Definition decode_content {St} (artifact : Artifact) : Body St string :=
  match bytes_decode lib (artifact_content artifact) with
  | Returned text => Body.ret text
  | Raised error => Body.raise error
  end.

(** ** The six stage agents *)

(** [python_agents/agents/snapchat_data_fetcher_agent.py] *)
Definition SnapchatDataFetcherAgent_run (user_id : Z) : Body Store Artifact :=
  (user <- on_storage (get_user user_id) ;;
   match user with
   | None =>
       Body.raise (Exc ValueError
         ("Snapchat credentials not found for user " +:+ str_of_int user_id))
   | Some user =>
       if negb (opt_str_truthy (snapchat_client_id user))
          || negb (opt_str_truthy (snapchat_api_key user))
       then Body.raise (Exc ValueError
              ("Snapchat credentials not found for user " +:+ str_of_int user_id))
       else
         (snapchat_data <- fetch_snapchat_data
                             (str_value (snapchat_client_id user))
                             (str_value (snapchat_api_key user)) ;;
          artifact <- artifact_service_create
                        ("snapchat-data-" +:+ str_of_int user_id)
                        (str_encode lib (json_dumps lib snapchat_data))
                        "application/json" ;;
          Body.ret artifact)
   end)%body.

(** [python_agents/agents/data_analysis_agent.py] *)
Definition DataAnalysisAgent_run (snapchat_data_artifact : Artifact) : Body Store Artifact :=
  (snapchat_data <- parse_snapchat_artifact snapchat_data_artifact ;;
   insight <- generate_ai_insight snapchat_data ;;
   insight_artifact <- artifact_service_create
                         ("insight-" +:+ artifact_name snapchat_data_artifact)
                         (str_encode lib insight)
                         "text/plain" ;;
   Body.ret insight_artifact)%body.

(** [agent-service/adk/services/test.py], [TestAgent.run].  The
    [python_agents] orchestrator imports its validation agent from
    [agents/test_agent.py], which is not among the sources; this is
    the repository's one [TestAgent]. *)
Definition TestAgent_run {St} (args : pyval * pyval) : Body St bool :=
  let '(snapchat_data, insights) := args in
  if negb (truthy snapchat_data)
  then Body.raise (Exc Exception_ "Invalid Snapchat data: missing totalFollowers")
  else
    match py_get snapchat_data "totalFollowers" with
    | Raised error => Body.raise error
    | Returned total_followers =>
        if negb (truthy total_followers)
        then Body.raise (Exc Exception_ "Invalid Snapchat data: missing totalFollowers")
        else if negb (truthy insights) || negb (is_str insights)
        then Body.raise (Exc Exception_ "Invalid insights: not a string")
        else Body.ret true
    end.

(** [agent-service/adk/services/safety.py], [SafetyAgent]; the
    [python_agents] counterpart [agents/safety_agent.py] is not among
    the sources either. *)
Definition contains_pii (data : pyval) : bool := false.
Definition contains_inappropriate_content (text : pyval) : bool := false.

Definition SafetyAgent_run {St} (args : pyval * pyval) : Body St bool :=
  let '(snapchat_data, insights) := args in
  if contains_pii snapchat_data
  then Body.raise (Exc Exception_ "Snapchat data contains PII")
  else if contains_inappropriate_content insights
  then Body.raise (Exc Exception_ "Insights contain inappropriate content")
  else Body.ret true.

(** [python_agents/agents/evaluation_agent.py] *)
Definition _is_relevant (insights : string) : bool := true.
Definition _is_actionable (insights : string) : bool := true.

Definition EvaluationAgent_run {St} (insights : string) : Body St bool :=
  if negb (_is_relevant insights)
  then Body.raise (Exc ValueError "Insights are not relevant")
  else if negb (_is_actionable insights)
  then Body.raise (Exc ValueError "Insights are not actionable")
  else Body.ret true.

(** [python_agents/agents/database_agent.py] *)
Definition DatabaseAgent_run (args : Z * pyval * string) : Body Store bool :=
  let '(user_id, snapchat_data, insights) := args in
  (_ <- on_storage (save_snapchat_data user_id snapchat_data) ;;
   _ <- on_storage (save_ai_insight user_id insights) ;;
   Body.ret true)%body.

(** ** The orchestrator ([python_agents/agents/orchestrator_agent.py]) *)

Definition OrchestratorAgent_run {St} (self : OrchestratorAgent St) (user_id : Z)
  : Traced St StageEvent Bundle :=
  (snapchat_data_artifact <- stage Fetch (snapchat_fetcher self) user_id ;;
   insight_artifact <- stage Analysis (data_analyzer self) snapchat_data_artifact ;;
   snapchat_data <- Traced.call (parse_snapchat_artifact snapchat_data_artifact) ;;
   insights <- Traced.call (decode_content insight_artifact) ;;
   _ <- stage Validation (test_agent self) (snapchat_data, VStr insights) ;;
   _ <- stage Safety (safety_agent self) (snapchat_data, VStr insights) ;;
   _ <- stage Evaluation (evaluation_agent self) insights ;;
   _ <- stage Persistence (database_agent self) (user_id, snapchat_data, insights) ;;
   Traced.ret {| snapchatData := snapchat_data; insights := insights |})%traced.

(** The orchestrator as an agent: [execute] wraps [run] in the
    orchestrator's own hooks. *)
Definition OrchestratorAgent_agent {St} (self : OrchestratorAgent St)
  : Agent St Z Bundle :=
  {| class_name := "OrchestratorAgent";
     run := fun user_id => Traced.forget (OrchestratorAgent_run self user_id);
     _plugins := orchestrator_plugins self |}.

(** The agents as [OrchestratorAgent.__init__] builds them: each one
    gets a [LoggingPlugin].  The validation and safety agents it
    imports ([agents/test_agent.py], [agents/safety_agent.py]) are
    taken to be the [TestAgent] and [SafetyAgent] above, which do what
    sections 4.5 and 4.6 of the specification describe. *)
Definition new_agent {St Arg Res} (name : string) (body : Arg -> Body St Res)
  : Agent St Arg Res :=
  {| class_name := name; run := body; _plugins := [] |}.

Definition OrchestratorAgent_init : OrchestratorAgent Store :=
  {| snapchat_fetcher :=
       add_plugin (new_agent "SnapchatDataFetcherAgent" SnapchatDataFetcherAgent_run)
                  LoggingPlugin;
     data_analyzer :=
       add_plugin (new_agent "DataAnalysisAgent" DataAnalysisAgent_run) LoggingPlugin;
     test_agent := add_plugin (new_agent "TestAgent" TestAgent_run) LoggingPlugin;
     safety_agent := add_plugin (new_agent "SafetyAgent" SafetyAgent_run) LoggingPlugin;
     evaluation_agent :=
       add_plugin (new_agent "EvaluationAgent" EvaluationAgent_run) LoggingPlugin;
     database_agent :=
       add_plugin (new_agent "DatabaseAgent" DatabaseAgent_run) LoggingPlugin;
     orchestrator_plugins := [LoggingPlugin] |}.

End Pipeline.

(** * Specification vocabulary *)

(** The positions, counted from [i], of the plugins that have a given
    hook. *)
Fixpoint positions_where {P X : Type} (hook : P -> option X) (i : nat) (plugins : list P)
  : list nat :=
  match plugins with
  | [] => []
  | plugin :: rest =>
      match hook plugin with
      | Some _ => i :: positions_where hook (S i) rest
      | None => positions_where hook (S i) rest
      end
  end.

Section FrameworkSpec.
Context {St Arg Res : Type}.
Implicit Types (self : Agent St Arg Res) (p : Plugin St Arg Res).

(** The hook calls one [execute] is expected to make: every plugin
    that has the hook, once, in attachment order. *)
Definition start_events self (args : Arg) : list (HookEvent Arg Res) :=
  map (fun i => StartHook i args) (positions_where on_agent_start 0%nat (_plugins self)).

Definition end_events self (result : Res) : list (HookEvent Arg Res) :=
  map (fun i => EndHook i result) (positions_where on_agent_end 0%nat (_plugins self)).

Definition error_events self (error : exc) : list (HookEvent Arg Res) :=
  map (fun i => ErrorHook i error) (positions_where on_agent_error 0%nat (_plugins self)).

Definition fires_end (trace : list (HookEvent Arg Res)) : Prop :=
  exists i result, In (EndHook i result) trace.

Definition fires_error (trace : list (HookEvent Arg Res)) : Prop :=
  exists i error, In (ErrorHook i error) trace.

(** The contract of [execute] on one call: start hooks, then [run],
    then the end hooks with the result, which is returned, or the
    error hooks with the failure, which is raised again; never end
    and error hooks in the same call. *)
Definition execute_contract self (args : Arg) (st : St) : Prop :=
  exists st1,
    _trigger_start self args st = (Returned tt, st1, start_events self args) /\
    match run self args st1 with
    | (Returned result, st2) =>
        exists st3,
          _trigger_end self result st2 = (Returned tt, st3, end_events self result) /\
          execute self args st =
            (Returned result, st3,
             start_events self args ++ [RunCall args] ++ end_events self result)
    | (Raised error, st2) =>
        exists st3,
          _trigger_error self error st2 = (Returned tt, st3, error_events self error) /\
          execute self args st =
            (Raised error, st3,
             start_events self args ++ [RunCall args] ++ error_events self error)
    end /\
    (let '(_, _, trace) := execute self args st in
     ~ (fires_end trace /\ fires_error trace)).

(** No hook of any attached plugin raises. *)
Definition hooks_return self : Prop :=
  forall p, In p (_plugins self) ->
    (forall h name args st, on_agent_start p = Some h ->
       exists st', h name args st = (Returned tt, st')) /\
    (forall h name result st, on_agent_end p = Some h ->
       exists st', h name result st = (Returned tt, st')) /\
    (forall h name error st, on_agent_error p = Some h ->
       exists st', h name error st = (Returned tt, st')).

(** No [on_agent_error] hook of any attached plugin raises. *)
Definition error_hooks_return self : Prop :=
  forall p h name error st, In p (_plugins self) -> on_agent_error p = Some h ->
    exists st', h name error st = (Returned tt, st').

(** What is expected of [execute] when the start hooks and [run]
    return and an end hook raises [error]: the end hooks up to the
    raising one have fired, every error hook fires with [error], and
    [error] reaches the caller in place of [run]'s result. *)
Definition end_hook_failure_contract self (args : Arg) (st : St) : Prop :=
  forall starts st1 result st2 error st3 ends,
    _trigger_start self args st = (Returned tt, st1, starts) ->
    run self args st1 = (Returned result, st2) ->
    _trigger_end self result st2 = (Raised error, st3, ends) ->
    starts = start_events self args /\
    (exists k,
       In (EndHook k result) ends /\
       ends = map (fun i => EndHook i result)
                  (positions_where on_agent_end 0%nat (firstn (S k) (_plugins self)))) /\
    exists st4,
      _trigger_error self error st3 = (Returned tt, st4, error_events self error) /\
      execute self args st =
        (Raised error, st4,
         starts ++ [RunCall args] ++ ends ++ error_events self error).

End FrameworkSpec.

(** ** Failure conditions

    The conditions of the error taxonomy, as the exceptions the code
    raises for them. *)

Definition MissingCredentials (user_id : Z) : exc :=
  Exc ValueError ("Snapchat credentials not found for user " +:+ str_of_int user_id).


Definition InvalidData : exc :=
  Exc Exception_ "Invalid Snapchat data: missing totalFollowers".

Definition InvalidInsight : exc :=
  Exc Exception_ "Invalid insights: not a string".

(** ** Validation vocabulary *)

(** The raw value is absent, or is a dict without the follower-count
    field. *)
Definition lacks_follower_count (data : pyval) : Prop :=
  data = VNone \/
  exists entries, data = VDict entries /\ dict_lookup "totalFollowers" entries = None.

(** The raw value is a dict that has the follower-count field. *)
Definition has_follower_count (data : pyval) : Prop :=
  exists entries v, data = VDict entries /\ dict_lookup "totalFollowers" entries = Some v.

(** The validation stage read as a pure shape check: it rejects a raw
    value without the field, rejects an insight that is absent or not a
    string, and accepts everything else. *)
Definition validation_is_shape_check : Prop :=
  forall (data insights : pyval) (st : unit),
    (lacks_follower_count data ->
       TestAgent_run (data, insights) st = (Raised InvalidData, st)) /\
    (has_follower_count data -> insights = VNone \/ is_str insights = false ->
       TestAgent_run (data, insights) st = (Raised InvalidInsight, st)) /\
    (has_follower_count data -> (exists text, insights = VStr text) ->
       TestAgent_run (data, insights) st = (Returned true, st)).

(** ** Orchestrator vocabulary *)

(** The stage events of a run in which all six stages return. *)
Definition all_stages_returned : list StageEvent :=
  [StageCalled Fetch; StageReturned Fetch;
   StageCalled Analysis; StageReturned Analysis;
   StageCalled Validation; StageReturned Validation;
   StageCalled Safety; StageReturned Safety;
   StageCalled Evaluation; StageReturned Evaluation;
   StageCalled Persistence; StageReturned Persistence].

(** Stage [later] comes after stage [earlier] in the sequence. *)
Definition stage_after (earlier later : Stage) : Prop :=
  (stage_index earlier < stage_index later)%nat.

(** The stage events of the stages before [s], all of which returned. *)
Definition stages_before (s : Stage) : list StageEvent :=
  firstn (2 * stage_index s) all_stages_returned.

(** ** Pipeline vocabulary *)

(** A credential field that is absent or empty. *)
Definition credential_unset (field : option string) : Prop :=
  field = None \/ field = Some "".

(** The subject has no usable credentials in the directory: no record,
    or a record with an unset client id or API key. *)
Definition credentials_missing (st : Store) (user_id : Z) : Prop :=
  match _users (storage st) !! user_id with
  | None => True
  | Some user =>
      credential_unset (snapchat_client_id user) \/
      credential_unset (snapchat_api_key user)
  end.

(** The state after the logger has written one record. *)
Definition logged (level message : string) (context : list (string * string)) (st : Store)
  : Store :=
  snd (logger_emit level message context st).

Definition log_start (agent_name : string) : Store -> Store :=
  logged "INFO" "Agent started" [("agent", agent_name)].

Definition log_end (agent_name : string) : Store -> Store :=
  logged "INFO" "Agent ended" [("agent", agent_name)].

Definition log_error (agent_name : string) (error : exc) : Store -> Store :=
  logged "ERROR" "Agent error"
    [("agent", agent_name);
     ("error", exc_message error);
     ("error_type", exc_type_name (exc_type error))].

(** The state with its log replaced. *)
Definition with_log (records : list LogRecord) (st : Store) : Store :=
  {| storage := storage st;
     artifacts := artifacts st;
     log_records := records;
     random_tape := random_tape st;
     clock_tape := clock_tape st |}.

(** Code that neither reads nor writes the log. *)
Definition log_blind {A : Type} (m : Body Store A) : Prop :=
  forall records st,
    m (with_log records st) = let '(o, st') := m st in (o, with_log records st').

(** ** Sample agents and plugins

    Small concrete agents over a journal (a list of lines the hooks
    write), used to run the framework on explicit inputs. *)

Definition journal_write (line : string) : Body (list string) unit :=
  fun journal => (Returned tt, journal ++ [line]).

(** A plugin with all three hooks, none of which raises. *)
Definition journal_plugin : Plugin (list string) Z Z :=
  {| on_agent_start := Some (fun _ _ => journal_write "start");
     on_agent_end := Some (fun _ _ => journal_write "end");
     on_agent_error := Some (fun _ _ => journal_write "error") |}.

(** A plugin whose only hook, [on_agent_end], raises. *)
Definition brittle_end_plugin : Plugin (list string) Z Z :=
  {| on_agent_start := None;
     on_agent_end := Some (fun _ _ => Body.raise (Exc ValueError "end hook failed"));
     on_agent_error := None |}.

(** A plugin whose only hook, [on_agent_error], raises. *)
Definition brittle_error_plugin : Plugin (list string) Z Z :=
  {| on_agent_start := None;
     on_agent_end := None;
     on_agent_error := Some (fun _ _ => Body.raise (Exc ValueError "error hook failed")) |}.

(** An agent whose [run] returns its argument plus one. *)
Definition successor_agent (plugins : list (Plugin (list string) Z Z))
  : Agent (list string) Z Z :=
  {| class_name := "SuccessorAgent";
     run := fun n => Body.ret (n + 1);
     _plugins := plugins |}.

(** ** A reference library

    One concrete [PythonLib], for running the pipeline on explicit
    inputs: JSON text with Python's default separators, ASCII text as
    its own bytes, floats written with finitely many decimals, dates in
    the proleptic Gregorian calendar.  It covers what the pipeline
    writes and no more: the reader knows no exponents and keeps every
    entry of an object, the decoder refuses bytes outside ASCII, and
    the errors carry the kind of failure without its position. *)

Module Reference.

Definition dquote : ascii := "034"%char.
Definition newline : ascii := "010"%char.
Definition backslash : ascii := "\"%char.

Definition chars (s : string) : list ascii := list_ascii_of_string s.
Definition text (l : list ascii) : string := string_of_list_ascii l.

(** *** Writing JSON *)

Definition escape_char (c : ascii) : list ascii :=
  if Ascii.eqb c dquote then [backslash; dquote]
  else if Ascii.eqb c backslash then [backslash; backslash]
  else if Ascii.eqb c newline then [backslash; "n"%char]
  else [c].

Definition quote (s : string) : list ascii :=
  dquote :: flat_map escape_char (chars s) ++ [dquote].

(** The number of decimals of a denominator that is a power of ten. *)
Fixpoint decimal_places (fuel : nat) (den : Z) : option nat :=
  match fuel with
  | O => None
  | S fuel' =>
      if den =? 1 then Some O
      else if den mod 10 =? 0
           then option_map S (decimal_places fuel' (den / 10))
           else None
  end.

Definition print_float (q : Q) : list ascii :=
  match decimal_places 40 (Zpos (Qden q)) with
  | Some k =>
      let digits := chars (pretty (Z.abs (Qnum q))) in
      let padded := repeat "0"%char (S k - length digits) ++ digits in
      let n := (length padded - k)%nat in
      (if Qnum q <? 0 then ["-"%char] else []) ++
      firstn n padded ++ "."%char ::
      (match k with O => ["0"%char] | _ => skipn n padded end)
  | None => chars "NaN"
  end.

Fixpoint print (v : pyval) : list ascii :=
  match v with
  | VNone => chars "null"
  | VBool true => chars "true"
  | VBool false => chars "false"
  | VInt n => chars (pretty n)
  | VFloat q => print_float q
  | VStr s => quote s
  | VList items =>
      "["%char ::
      (fix print_items (l : list pyval) : list ascii :=
         match l with
         | [] => []
         | [x] => print x
         | x :: rest => print x ++ ","%char :: " "%char :: print_items rest
         end) items ++ ["]"%char]
  | VDict entries =>
      "{"%char ::
      (fix print_entries (l : list (string * pyval)) : list ascii :=
         match l with
         | [] => []
         | [(k, x)] => quote k ++ ":"%char :: " "%char :: print x
         | (k, x) :: rest =>
             quote k ++ ":"%char :: " "%char :: print x ++
             ","%char :: " "%char :: print_entries rest
         end) entries ++ ["}"%char]
  end.

(** *** Reading JSON *)

Fixpoint skip_ws (s : list ascii) : list ascii :=
  match s with
  | c :: rest =>
      if Ascii.eqb c " "%char || Ascii.eqb c newline then skip_ws rest else s
  | [] => []
  end.

Definition is_digit (c : ascii) : bool :=
  let n := nat_of_ascii c in (48 <=? n)%nat && (n <=? 57)%nat.

Fixpoint take_digits (s : list ascii) : list ascii * list ascii :=
  match s with
  | c :: rest =>
      if is_digit c
      then let '(digits, rest') := take_digits rest in (c :: digits, rest')
      else ([], s)
  | [] => ([], [])
  end.

Definition digits_value (digits : list ascii) : Z :=
  fold_left (fun acc c => acc * 10 + Z.of_nat (nat_of_ascii c - 48)) digits 0.

Definition parse_number (s : list ascii) : option (pyval * list ascii) :=
  let '(negative, s1) :=
    match s with
    | c :: rest => if Ascii.eqb c "-"%char then (true, rest) else (false, s)
    | [] => (false, s)
    end in
  let sign (n : Z) := if negative : bool then - n else n in
  let '(int_part, s2) := take_digits s1 in
  match int_part with
  | [] => None
  | _ =>
      match s2 with
      | c :: s3 =>
          if Ascii.eqb c "."%char
          then
            let '(frac_part, s4) := take_digits s3 in
            match frac_part with
            | [] => None
            | _ =>
                Some (VFloat (Qmake (sign (digits_value (int_part ++ frac_part)))
                                    (Pos.pow 10 (Pos.of_nat (length frac_part)))),
                      s4)
            end
          else Some (VInt (sign (digits_value int_part)), s2)
      | [] => Some (VInt (sign (digits_value int_part)), s2)
      end
  end.

(** The characters of a string literal after its opening quote. *)
Fixpoint parse_string_body (s acc : list ascii) : option (string * list ascii) :=
  match s with
  | [] => None
  | c :: rest =>
      if Ascii.eqb c dquote then Some (text (rev acc), rest)
      else if Ascii.eqb c backslash
      then match rest with
           | e :: rest' =>
               parse_string_body rest'
                 ((if Ascii.eqb e "n"%char then newline else e) :: acc)
           | [] => None
           end
      else parse_string_body rest (c :: acc)
  end.

Definition starts_with (prefix : string) (s : list ascii) : option (list ascii) :=
  let p := chars prefix in
  if decide (firstn (length p) s = p) then Some (skipn (length p) s) else None.

Fixpoint parse_value (fuel : nat) (s : list ascii) : option (pyval * list ascii) :=
  match fuel with
  | O => None
  | S fuel' =>
      match skip_ws s with
      | [] => None
      | c :: rest =>
          if Ascii.eqb c dquote then
            match parse_string_body rest [] with
            | Some (str, rest') => Some (VStr str, rest')
            | None => None
            end
          else if Ascii.eqb c "["%char then
            match skip_ws rest with
            | c' :: rest' =>
                if Ascii.eqb c' "]"%char then Some (VList [], rest')
                else parse_items fuel' rest []
            | [] => None
            end
          else if Ascii.eqb c "{"%char then
            match skip_ws rest with
            | c' :: rest' =>
                if Ascii.eqb c' "}"%char then Some (VDict [], rest')
                else parse_entries fuel' rest []
            | [] => None
            end
          else
            match starts_with "null" (c :: rest),
                  starts_with "true" (c :: rest),
                  starts_with "false" (c :: rest) with
            | Some rest', _, _ => Some (VNone, rest')
            | _, Some rest', _ => Some (VBool true, rest')
            | _, _, Some rest' => Some (VBool false, rest')
            | _, _, _ => parse_number (c :: rest)
            end
      end
  end
with parse_items (fuel : nat) (s : list ascii) (acc : list pyval)
  : option (pyval * list ascii) :=
  match fuel with
  | O => None
  | S fuel' =>
      match parse_value fuel' s with
      | Some (v, rest) =>
          match skip_ws rest with
          | c :: rest' =>
              if Ascii.eqb c ","%char then parse_items fuel' rest' (v :: acc)
              else if Ascii.eqb c "]"%char then Some (VList (rev (v :: acc)), rest')
              else None
          | [] => None
          end
      | None => None
      end
  end
with parse_entries (fuel : nat) (s : list ascii) (acc : list (string * pyval))
  : option (pyval * list ascii) :=
  match fuel with
  | O => None
  | S fuel' =>
      match skip_ws s with
      | q :: s1 =>
          if Ascii.eqb q dquote then
            match parse_string_body s1 [] with
            | Some (key, s2) =>
                match skip_ws s2 with
                | colon :: s3 =>
                    if Ascii.eqb colon ":"%char then
                      match parse_value fuel' s3 with
                      | Some (v, rest) =>
                          match skip_ws rest with
                          | c :: rest' =>
                              if Ascii.eqb c ","%char
                              then parse_entries fuel' rest' ((key, v) :: acc)
                              else if Ascii.eqb c "}"%char
                              then Some (VDict (rev ((key, v) :: acc)), rest')
                              else None
                          | [] => None
                          end
                      | None => None
                      end
                    else None
                | [] => None
                end
            | None => None
            end
          else None
      | [] => None
      end
  end.

Definition loads (s : string) : Outcome pyval :=
  match parse_value (S (String.length s)) (chars s) with
  | Some (v, rest) =>
      match skip_ws rest with
      | [] => Returned v
      | _ => Raised (Exc JSONDecodeError "Extra data")
      end
  | None => Raised (Exc JSONDecodeError "Expecting value")
  end.

(** *** Text and bytes *)

Definition is_ascii_byte (b : Byte.byte) : bool := (Byte.to_nat b <? 128)%nat.

Definition decode (bytes : list Byte.byte) : Outcome string :=
  if forallb is_ascii_byte bytes
  then Returned (string_of_list_byte bytes)
  else Raised (Exc UnicodeDecodeError "'utf-8' codec can't decode byte: invalid start byte").

(** *** Dates *)

Definition pad (width : nat) (n : Z) : string :=
  let digits := pretty n in
  text (repeat "0"%char (width - String.length digits)) +:+ digits.

(** Year, month and day of a day number counted from 1970-01-01. *)
Definition civil_from_days (days : Z) : Z * Z * Z :=
  let z := days + 719468 in
  let era := z / 146097 in
  let doe := z - era * 146097 in
  let yoe := (doe - doe / 1460 + doe / 36524 - doe / 146096) / 365 in
  let doy := doe - (365 * yoe + yoe / 4 - yoe / 100) in
  let mp := (5 * doy + 2) / 153 in
  let d := doy - (153 * mp + 2) / 5 + 1 in
  let m := if mp <? 10 then mp + 3 else mp - 9 in
  let y := yoe + era * 400 + (if m <=? 2 then 1 else 0) in
  (y, m, d).

Definition ymd (seconds : Z) : string :=
  let '(y, m, d) := civil_from_days (seconds / 86400) in
  pad 4 y +:+ "-" +:+ pad 2 m +:+ "-" +:+ pad 2 d.

Definition iso (seconds : Z) : string :=
  let s := seconds mod 86400 in
  ymd seconds +:+ "T" +:+ pad 2 (s / 3600) +:+ ":" +:+ pad 2 (s mod 3600 / 60)
    +:+ ":" +:+ pad 2 (s mod 60).

Definition lib : PythonLib :=
  {| json_dumps := fun v => text (print v);
     json_loads := loads;
     str_encode := list_byte_of_string;
     bytes_decode := decode;
     strftime_ymd := ymd;
     isoformat := iso |}.

End Reference.

(** A directory with one subject, id 1, holding both credentials. *)
Definition test_user : User :=
  {| user_id := 1;
     username := "test_user";
     snapchat_client_id := Some "test_client_id";
     snapchat_api_key := Some "test_api_key" |}.

Definition test_store : Store :=
  {| storage := {| _users := {[ 1 := test_user ]};
                   _snapchat_data := ∅;
                   _ai_insights := ∅ |};
     artifacts := [];
     log_records := [];
     random_tape := fun n => (n * 7 + 3)%nat;
     clock_tape := fun n => Z.of_nat n + 1700000000 |}.

(** What the upstream fetch returns for the test subject's credentials
    from the sources of [test_store]. *)
Definition test_upstream_data : pyval :=
  match fst (fetch_snapchat_data Reference.lib "test_client_id" "test_api_key" test_store) with
  | Returned data => data
  | Raised _ => VNone
  end.

(** An artifact whose content is not JSON. *)
Definition malformed_artifact : Artifact :=
  {| artifact_name := "snapchat-data-1";
     artifact_content := list_byte_of_string "not json";
     artifact_mime_type := "application/json" |}.

(** The pipeline built over the reference library. *)
Definition reference_pipeline : OrchestratorAgent Store :=
  OrchestratorAgent_init Reference.lib.

(** ** More sample plugins *)

(** A plugin whose only hook, [on_agent_start], raises. *)
Definition brittle_start_plugin : Plugin (list string) Z Z :=
  {| on_agent_start := Some (fun _ _ => Body.raise (Exc ValueError "start hook failed"));
     on_agent_end := None;
     on_agent_error := None |}.

(** An object with none of the three hooks. *)
Definition silent_plugin : Plugin (list string) Z Z :=
  {| on_agent_start := None; on_agent_end := None; on_agent_error := None |}.

(** ** Sequences of storage writes *)

(** [await storage.save_snapchat_data(u, d)] for each pair of a list,
    in order. *)
Fixpoint save_all (writes : list (Z * pyval)) : Body StorageService unit :=
  match writes with
  | [] => Body.ret tt
  | (user_id, data) :: rest =>
      (_ <- save_snapchat_data user_id data ;; save_all rest)%body
  end.

(** The data of the last write for [user_id] in a list of writes. *)
Fixpoint last_write (user_id : Z) (writes : list (Z * pyval)) : option pyval :=
  match writes with
  | [] => None
  | (u, data) :: rest =>
      match last_write user_id rest with
      | Some later => Some later
      | None => if u =? user_id then Some data else None
      end
  end.

(** ** Vocabulary for the mock services *)

(** One item of the follower-growth series. *)
Definition follower_entry (lib : PythonLib) (date followers : Z) : pyval :=
  VDict [("date", VStr (strftime_ymd lib date)); ("followers", VInt followers)].

(** [st'] is [st] after [draws] draws of [random] and [ticks] readings
    of the clock, and nothing else. *)
Definition sources_advanced (draws ticks : nat) (st st' : Store) : Prop :=
  storage st' = storage st /\
  artifacts st' = artifacts st /\
  log_records st' = log_records st /\
  (forall n, random_tape st' n = random_tape st (n + draws)%nat) /\
  (forall n, clock_tape st' n = clock_tape st (n + ticks)%nat).

(** The records the logging plugin writes. *)
Definition start_record (agent_name : string) : LogRecord :=
  {| log_level := "INFO"; log_message := "Agent started";
     log_context := [("agent", agent_name)] |}.

Definition end_record (agent_name : string) : LogRecord :=
  {| log_level := "INFO"; log_message := "Agent ended";
     log_context := [("agent", agent_name)] |}.

Definition error_record (agent_name : string) (error : exc) : LogRecord :=
  {| log_level := "ERROR"; log_message := "Agent error";
     log_context := [("agent", agent_name);
                     ("error", exc_message error);
                     ("error_type", exc_type_name (exc_type error))] |}.

(** A directory with two subjects holding credentials. *)
Definition two_user_store : Store :=
  {| storage := {| _users := {[ 1 := test_user;
                                2 := {| user_id := 2;
                                        username := "second_user";
                                        snapchat_client_id := Some "id2";
                                        snapchat_api_key := Some "key2" |} ]};
                   _snapchat_data := ∅;
                   _ai_insights := ∅ |};
     artifacts := [];
     log_records := [];
     random_tape := fun n => (n * 7 + 3)%nat;
     clock_tape := fun n => Z.of_nat n + 1700000000 |}.

(** A library whose JSON reader gives up with an error of its own. *)
Definition overflowing_lib : PythonLib :=
  {| json_dumps := json_dumps Reference.lib;
     json_loads := fun _ => Raised (Exc Exception_ "maximum recursion depth exceeded");
     str_encode := str_encode Reference.lib;
     bytes_decode := bytes_decode Reference.lib;
     strftime_ymd := strftime_ymd Reference.lib;
     isoformat := isoformat Reference.lib |}.

(** ** The limit of the JSON reader

    CPython's [json.loads] recurses once per level of nesting and
    gives up with [RecursionError] beyond the interpreter's limit,
    1000 frames by default.  [nesting_limited_lib] is the reference
    library with that limit, for the arrays that open a text. *)






(** ** Vocabulary for the stage agents *)

(** The artifact the fetch agent creates for a subject. *)
Definition data_artifact (lib : PythonLib) (user_id : Z) (data : pyval) : Artifact :=
  {| artifact_name := "snapchat-data-" +:+ str_of_int user_id;
     artifact_content := str_encode lib (json_dumps lib data);
     artifact_mime_type := "application/json" |}.

(** The artifact the analysis agent creates from an input artifact's
    name and an insight text. *)
Definition insight_artifact (lib : PythonLib) (source_name insight : string) : Artifact :=
  {| artifact_name := "insight-" +:+ source_name;
     artifact_content := str_encode lib insight;
     artifact_mime_type := "text/plain" |}.

(** The state with one more artifact in the store. *)
Definition with_artifact (artifact : Artifact) (st : Store) : Store :=
  {| storage := storage st;
     artifacts := artifacts st ++ [artifact];
     log_records := log_records st;
     random_tape := random_tape st;
     clock_tape := clock_tape st |}.

(** A small artifact holding well-formed JSON. *)
Definition small_artifact : Artifact :=
  data_artifact Reference.lib 1 (VDict [("totalFollowers", VInt 5)]).

(** ** Callers of the orchestrator *)

(** [try: m except Exception as e: handler e] for untraced code. *)
Definition Body_try_except {St A} (m : Body St A) (handler : exc -> Body St A) : Body St A :=
  fun s => match m s with
           | (Returned a, s1) => (Returned a, s1)
           | (Raised e, s1) => handler e s1
           end.

(** [storage._users[user_id] = user]. *)
Definition set_user (user_id : Z) (user : User) (st : Store) : Store :=
  {| storage := {| _users := <[user_id := user]> (_users (storage st));
                   _snapchat_data := _snapchat_data (storage st);
                   _ai_insights := _ai_insights (storage st) |};
     artifacts := artifacts st;
     log_records := log_records st;
     random_tape := random_tape st;
     clock_tape := clock_tape st |}.

Section Callers.
Context (lib : PythonLib).

(** [python_agents/run_orchestrator.py], [setup_test_user]. *)
Definition setup_test_user (user_id : Z) : Body Store unit :=
  fun st =>
    let user := {| user_id := user_id;
                   username := "test_user_" +:+ str_of_int user_id;
                   snapchat_client_id := Some "test_client_id";
                   snapchat_api_key := Some "test_api_key" |} in
    (Returned tt, set_user user_id user st).

(** [python_agents/run_orchestrator.py], [main]: the exit code.  What
    it prints is not modelled. *)
Definition main (user_id : Z) (setup_user : bool) : Body Store Z :=
  Body_try_except
    (_ <- (if setup_user then setup_test_user user_id else Body.ret tt) ;;
     result <- Traced.forget
                 (execute (OrchestratorAgent_agent lib (OrchestratorAgent_init lib)) user_id) ;;
     Body.ret 0)%body
    (fun e => Body.ret 1).

End Callers.

(** [agent-service/main.py], [run_agent_workflow]: the body and status
    of the response for a request whose JSON body is [data].
    [orchestrator_run] stands for [OrchestratorAgent().run]. *)
Definition run_agent_workflow {St} (orchestrator_run : pyval -> Body St pyval) (data : pyval)
  : Body St (pyval * Z) :=
  match py_get data "userId" with
  | Raised error => Body.raise error
  | Returned user_id =>
      if negb (truthy user_id)
      then Body.ret (VDict [("error", VStr "userId is required")], 400)
      else Body_try_except
             (result <- orchestrator_run user_id ;; Body.ret (result, 200))%body
             (fun e => Body.ret (VDict [("error", VStr (exc_message e))], 500))
  end.

(** The record [setup_test_user] stores for a subject. *)
Definition test_user_for (user_id : Z) : User :=
  {| user_id := user_id;
     username := "test_user_" +:+ str_of_int user_id;
     snapchat_client_id := Some "test_client_id";
     snapchat_api_key := Some "test_api_key" |}.

(** A directory whose subject 7 has no API key. *)
Definition keyless_store : Store :=
  set_user 7 {| user_id := 7; username := "keyless";
                snapchat_client_id := Some "cid"; snapchat_api_key := None |}
    test_store.

(** ** The agent-service workflow
    ([agent-service/agents.py], [agent-service/adk/services])

    The synchronous sibling of the pipeline: plain [run] calls, no
    hooks, no artifacts.  Its collaborators are the database-backed
    [storage] and the Gemini client; what the database and the model
    answer is taken as given, and the calls that write to storage are
    recorded as events.  What the agents print is not modelled. *)

Module AgentService.

Inductive WriteEvent : Type :=
| SaveDataCalled (user_id : Z) (data : pyval)
| SaveInsightCalled (user_id : Z) (insights : pyval).

(** [adk/services/snapchat_api.py] *)
Definition upstream_data : pyval :=
  VDict [("totalFollowers", VInt 24583);
         ("followerGrowth", VFloat 12.3);
         ("totalStoryViews", VInt 15942);
         ("storyViewsGrowth", VFloat 8.7);
         ("engagementRate", VFloat 5.2);
         ("engagementRateChange", VFloat (-2.1));
         ("completionRate", VFloat 78.3);
         ("completionRateChange", VFloat 3.5);
         ("lastUpdated", VStr "2025-09-29T12:00:00.000Z")].

Definition fetch_snapchat_data (client_id api_key : pyval) : Outcome pyval :=
  if negb (truthy client_id) || negb (truthy api_key)
  then Raised (Exc Exception_ "Invalid Snapchat API credentials")
  else Returned upstream_data.

(** [adk/services/evaluation.py] *)
Definition is_relevant (insights : pyval) : bool := true.
Definition is_actionable (insights : pyval) : bool := true.

Definition EvaluationAgent_run {St} (insights : pyval) : Body St bool :=
  if negb (is_relevant insights)
  then Body.raise (Exc Exception_ "Insights are not relevant")
  else if negb (is_actionable insights)
  then Body.raise (Exc Exception_ "Insights are not actionable")
  else Body.ret true.

Section Workflow.
Context {St : Type}.
(** [storage.get_user], [storage.save_snapchat_data],
    [storage.save_ai_insight] of [adk/services/storage.py] and
    [generate_ai_insight] of [adk/services/gemini.py], over the state
    of the database and of the outside world.  [get_user] returns
    [cur.fetchone()] of a cursor made by [self.conn.cursor()]: [None]
    when no row matches, else the row as a tuple of its column values. *)
Context (storage_get_user : Z -> Body St (option (list pyval)))
        (storage_save_snapchat_data : Z -> pyval -> Body St unit)
        (storage_save_ai_insight : Z -> pyval -> Body St unit)
        (generate_ai_insight : pyval -> Body St pyval).

(** The truth value of what [fetchone] returned: [None] and the empty
    tuple are falsy. *)
Definition row_truthy (row : option (list pyval)) : bool :=
  match row with
  | None | Some [] => false
  | Some (_ :: _) => true
  end.

(** [row.<name>] on what [fetchone] returned: neither [None] nor a
    tuple has such an attribute. *)
Definition row_getattr (row : option (list pyval)) (name : string) : Outcome pyval :=
  Raised (Exc AttributeError
            ("'" +:+ (match row with None => "NoneType" | Some _ => "tuple" end)
             +:+ "' object has no attribute '" +:+ name +:+ "'")).

Definition credentials_not_found (user_id : Z) : exc :=
  Exc Exception_ ("Snapchat credentials not found for user " +:+ str_of_int user_id).

(** [adk/services/snapchat.py].  The guard is a short-circuit [or]; the
    attributes are read again for the call. *)
Definition SnapchatDataFetcherAgent_run (user_id : Z) : Traced St WriteEvent pyval :=
  (user <- Traced.call (storage_get_user user_id) ;;
   if negb (row_truthy user) then Traced.raise (credentials_not_found user_id)
   else
     match row_getattr user "snapchat_client_id" with
     | Raised error => Traced.raise error
     | Returned client_id =>
         if negb (truthy client_id) then Traced.raise (credentials_not_found user_id)
         else
           match row_getattr user "snapchat_api_key" with
           | Raised error => Traced.raise error
           | Returned api_key =>
               if negb (truthy api_key) then Traced.raise (credentials_not_found user_id)
               else
                 match fetch_snapchat_data client_id api_key with
                 | Raised error => Traced.raise error
                 | Returned snapchat_data =>
                     (_ <- Traced.emit (SaveDataCalled user_id snapchat_data) ;;
                      _ <- Traced.call (storage_save_snapchat_data user_id snapchat_data) ;;
                      Traced.ret snapchat_data)
                 end
           end
     end)%traced.

(** [adk/services/analysis.py] *)
Definition DataAnalysisAgent_run (snapchat_data : pyval) : Traced St WriteEvent pyval :=
  Traced.call (generate_ai_insight snapchat_data).

(** [adk/services/database.py] *)
Definition DatabaseAgent_run (user_id : Z) (snapchat_data insights : pyval)
  : Traced St WriteEvent bool :=
  (_ <- Traced.emit (SaveDataCalled user_id snapchat_data) ;;
   _ <- Traced.call (storage_save_snapchat_data user_id snapchat_data) ;;
   _ <- Traced.emit (SaveInsightCalled user_id insights) ;;
   _ <- Traced.call (storage_save_ai_insight user_id insights) ;;
   Traced.ret true)%traced.

(** [agents.py], [OrchestratorAgent.run] *)
Definition OrchestratorAgent_run (user_id : Z) : Traced St WriteEvent pyval :=
  (snapchat_data <- SnapchatDataFetcherAgent_run user_id ;;
   insights <- DataAnalysisAgent_run snapchat_data ;;
   _ <- Traced.call (TestAgent_run (snapchat_data, insights)) ;;
   _ <- Traced.call (SafetyAgent_run (snapchat_data, insights)) ;;
   _ <- Traced.call (EvaluationAgent_run insights) ;;
   _ <- DatabaseAgent_run user_id snapchat_data insights ;;
   Traced.ret (VDict [("snapchat_data", snapchat_data); ("insights", insights)]))%traced.

End Workflow.

End AgentService.

(** * Properties of the agent framework *)

Section FrameworkFacts.
Context {St Arg Res : Type}.
Implicit Types (self : Agent St Arg Res) (p : Plugin St Arg Res).

Lemma for_each_plugin_returns (hook : Plugin St Arg Res -> option (Body St unit))
    (ev : nat -> HookEvent Arg Res) (plugins : list (Plugin St Arg Res)) :
  (forall p h st, In p plugins -> hook p = Some h -> exists st', h st = (Returned tt, st')) ->
  forall i st, exists st',
    for_each_plugin hook ev i plugins st
    = (Returned tt, st', map ev (positions_where hook i plugins)).
Proof.
  induction plugins as [|p rest IH]; intros Hret i st; simpl.
  - exists st. reflexivity.
  - destruct (hook p) as [h|] eqn:Hh.
    + destruct (Hret p h st (or_introl eq_refl) Hh) as [st1 Hst1].
      destruct (IH (fun q g s Hin => Hret q g s (or_intror Hin)) (S i) st1) as [st2 Hst2].
      exists st2. unfold Traced.bind, Traced.emit, Traced.call.
      rewrite Hst1, Hst2. reflexivity.
    + apply IH. intros q g s Hin. apply Hret. right. exact Hin.
Qed.

Lemma positions_where_ext {X Y : Type} (f : Plugin St Arg Res -> option X)
    (g : Plugin St Arg Res -> option Y) (plugins : list (Plugin St Arg Res)) :
  (forall p, is_Some (f p) <-> is_Some (g p)) ->
  forall i, positions_where f i plugins = positions_where g i plugins.
Proof.
  intros Hfg. induction plugins as [|p rest IH]; intros i; simpl; [reflexivity|].
  destruct (f p) as [x|] eqn:Hf, (g p) as [y|] eqn:Hg; rewrite ?IH; try reflexivity.
  - assert (is_Some (g p)) as [z Hz] by (apply Hfg; rewrite Hf; eauto). congruence.
  - assert (is_Some (f p)) as [z Hz] by (apply Hfg; rewrite Hg; eauto). congruence.
Qed.

(** [positions_where] lists each position that has the hook once, in
    increasing order: this is what "exactly once, in attachment order"
    means for the event lists of the contract. *)
Lemma positions_where_lower {X : Type} (f : Plugin St Arg Res -> option X)
    (plugins : list (Plugin St Arg Res)) :
  forall i j, In j (positions_where f i plugins) -> (i <= j)%nat.
Proof.
  induction plugins as [|p rest IH]; intros i j; simpl; [contradiction|].
  destruct (f p).
  - intros [<- | Hin]; [lia|]. apply IH in Hin. lia.
  - intros Hin. apply IH in Hin. lia.
Qed.

Lemma positions_where_sorted {X : Type} (f : Plugin St Arg Res -> option X)
    (plugins : list (Plugin St Arg Res)) :
  forall i, StronglySorted lt (positions_where f i plugins).
Proof.
  induction plugins as [|p rest IH]; intros i; simpl; [constructor|].
  destruct (f p); [|apply IH].
  constructor; [apply IH|].
  apply List.Forall_forall. intros j Hin. apply positions_where_lower in Hin. lia.
Qed.

Lemma positions_where_elem {X : Type} (f : Plugin St Arg Res -> option X)
    (plugins : list (Plugin St Arg Res)) :
  forall i j,
    In j (positions_where f i plugins) <->
    (i <= j)%nat /\ exists p, nth_error plugins (j - i) = Some p /\ is_Some (f p).
Proof.
  induction plugins as [|p rest IH]; intros i j; simpl.
  - split; [contradiction|]. intros (_ & q & Hq & _).
    destruct (j - i)%nat; discriminate.
  - assert (In j (positions_where f (S i) rest) <->
            (i <= j)%nat /\ j <> i /\
            exists q, nth_error (p :: rest) (j - i) = Some q /\ is_Some (f q)) as Hrest.
    { rewrite IH. split.
      - intros (Hle & q & Hq & Hf). split; [lia|]. split; [lia|].
        exists q. split; [|exact Hf].
        replace (j - i)%nat with (S (j - S i)) by lia. exact Hq.
      - intros (Hle & Hne & q & Hq & Hf). split; [lia|].
        exists q. split; [|exact Hf].
        replace (j - i)%nat with (S (j - S i)) in Hq by lia. exact Hq. }
    destruct (f p) as [x|] eqn:Hp.
    + split.
      * intros [<- | Hin].
        -- split; [lia|]. exists p. rewrite Nat.sub_diag. split; [reflexivity|].
           rewrite Hp. eauto.
        -- apply Hrest in Hin as (Hle & _ & Hq). split; assumption.
      * intros (Hle & q & Hq & Hf).
        destruct (Nat.eq_dec j i) as [->|Hne]; [left; reflexivity|].
        right. apply Hrest. split; [exact Hle|]. split; [exact Hne|]. eauto.
    + rewrite Hrest. split.
      * intros (Hle & _ & Hq). split; assumption.
      * intros (Hle & q & Hq & Hf). split; [exact Hle|]. split; [|eauto].
        intros ->. rewrite Nat.sub_diag in Hq. injection Hq as <-.
        rewrite Hp in Hf. destruct Hf as [y Hy]. discriminate.
Qed.

Lemma positions_where_start self (args : Arg) i plugins :
  positions_where (start_hook self args) i plugins
  = positions_where on_agent_start i plugins.
Proof.
  apply positions_where_ext. intros p. unfold start_hook.
  destruct (on_agent_start p); split; intros [x Hx]; eauto; discriminate.
Qed.

Lemma positions_where_end self (result : Res) i plugins :
  positions_where (end_hook self result) i plugins
  = positions_where on_agent_end i plugins.
Proof.
  apply positions_where_ext. intros p. unfold end_hook.
  destruct (on_agent_end p); split; intros [x Hx]; eauto; discriminate.
Qed.

Lemma positions_where_error self (error : exc) i plugins :
  positions_where (error_hook self error) i plugins
  = positions_where on_agent_error i plugins.
Proof.
  apply positions_where_ext. intros p. unfold error_hook.
  destruct (on_agent_error p); split; intros [x Hx]; eauto; discriminate.
Qed.

(** A loop over the plugins that returns has called every hook. *)
Lemma for_each_plugin_returned (hook : Plugin St Arg Res -> option (Body St unit))
    (ev : nat -> HookEvent Arg Res) (plugins : list (Plugin St Arg Res)) :
  forall i st u st' trace,
    for_each_plugin hook ev i plugins st = (Returned u, st', trace) ->
    trace = map ev (positions_where hook i plugins).
Proof.
  induction plugins as [|p rest IH]; intros i st u st' trace; simpl.
  - unfold Traced.ret. intros [= _ _ <-]. reflexivity.
  - destruct (hook p) as [h|]; [|apply IH].
    unfold Traced.bind, Traced.emit, Traced.call.
    destruct (h st) as [[[]|e] st1]; [|discriminate].
    destruct (for_each_plugin hook ev (S i) rest st1) as [[o st2] t2] eqn:Hrest.
    intros [= -> <- <-]. simpl. f_equal. eapply IH. exact Hrest.
Qed.

(** A loop over the plugins that raises has called the hooks up to
    the raising one, at some position [k] from the start. *)
Lemma for_each_plugin_raised (hook : Plugin St Arg Res -> option (Body St unit))
    (ev : nat -> HookEvent Arg Res) (plugins : list (Plugin St Arg Res)) :
  forall i st error st' trace,
    for_each_plugin hook ev i plugins st = (Raised error, st', trace) ->
    exists k,
      In (ev (i + k)%nat) trace /\
      trace = map ev (positions_where hook i (firstn (S k) plugins)).
Proof.
  induction plugins as [|p rest IH]; intros i st error st' trace; simpl.
  - unfold Traced.ret. discriminate.
  - destruct (hook p) as [h|] eqn:Hh.
    + unfold Traced.bind, Traced.emit, Traced.call.
      destruct (h st) as [[[]|e] st1].
      * destruct (for_each_plugin hook ev (S i) rest st1) as [[o st2] t2] eqn:Hrest.
        intros [= -> <- <-].
        destruct (IH _ _ _ _ _ Hrest) as (k & Hin & Ht2).
        exists (S k). split.
        -- simpl. right. replace (i + S k)%nat with (S i + k)%nat by lia. exact Hin.
        -- change (firstn (S (S k)) (p :: rest)) with (p :: firstn (S k) rest).
           simpl. rewrite ?Hh. simpl. f_equal. exact Ht2.
      * intros [= <- <- <-]. exists 0%nat. split.
        -- simpl. left. f_equal. lia.
        -- simpl. rewrite ?Hh. reflexivity.
    + intros Hrest. destruct (IH _ _ _ _ _ Hrest) as (k & Hin & Ht2).
      exists (S k). split.
      * replace (i + S k)%nat with (S i + k)%nat by lia. exact Hin.
      * change (firstn (S (S k)) (p :: rest)) with (p :: firstn (S k) rest).
        simpl. rewrite ?Hh. exact Ht2.
Qed.

Lemma _trigger_start_returns self (args : Arg) (st : St) :
  hooks_return self ->
  exists st1, _trigger_start self args st = (Returned tt, st1, start_events self args).
Proof.
  intros Hret. unfold _trigger_start, start_events.
  rewrite <- (positions_where_start self args).
  apply for_each_plugin_returns. intros p h s Hin Hh.
  unfold start_hook in Hh. destruct (on_agent_start p) as [g|] eqn:Hg; [|discriminate].
  injection Hh as <-. destruct (Hret p Hin) as (Hs & _ & _). eauto.
Qed.

Lemma _trigger_end_returns self (result : Res) (st : St) :
  hooks_return self ->
  exists st1, _trigger_end self result st = (Returned tt, st1, end_events self result).
Proof.
  intros Hret. unfold _trigger_end, end_events.
  rewrite <- (positions_where_end self result).
  apply for_each_plugin_returns. intros p h s Hin Hh.
  unfold end_hook in Hh. destruct (on_agent_end p) as [g|] eqn:Hg; [|discriminate].
  injection Hh as <-. destruct (Hret p Hin) as (_ & He & _). eauto.
Qed.

Lemma _trigger_error_returns self (error : exc) (st : St) :
  error_hooks_return self ->
  exists st1, _trigger_error self error st = (Returned tt, st1, error_events self error).
Proof.
  intros Hret. unfold _trigger_error, error_events.
  rewrite <- (positions_where_error self error).
  apply for_each_plugin_returns. intros p h s Hin Hh.
  unfold error_hook in Hh. destruct (on_agent_error p) as [g|] eqn:Hg; [|discriminate].
  injection Hh as <-. eapply Hret; eauto.
Qed.

Lemma hooks_return_error self : hooks_return self -> error_hooks_return self.
Proof.
  intros Hret p h name error st Hin Hh.
  destruct (Hret p Hin) as (_ & _ & He). eauto.
Qed.

(** [execute], step by step. *)
Lemma execute_run_returned self (args : Arg) st st1 t1 result st2 st3 t3 :
  _trigger_start self args st = (Returned tt, st1, t1) ->
  run self args st1 = (Returned result, st2) ->
  _trigger_end self result st2 = (Returned tt, st3, t3) ->
  execute self args st = (Returned result, st3, t1 ++ [RunCall args] ++ t3).
Proof.
  intros H1 H2 H3. unfold execute, Traced.try_except, Traced.bind,
    Traced.emit, Traced.call, Traced.ret.
  rewrite H1, H2, H3. simpl. rewrite app_nil_r. reflexivity.
Qed.

Lemma execute_run_raised self (args : Arg) st st1 t1 error st2 o st3 t3 :
  _trigger_start self args st = (Returned tt, st1, t1) ->
  run self args st1 = (Raised error, st2) ->
  _trigger_error self error st2 = (o, st3, t3) ->
  execute self args st =
    (match o with Returned _ => Raised error | Raised e' => Raised e' end,
     st3, t1 ++ [RunCall args] ++ t3).
Proof.
  intros H1 H2 H3. unfold execute, Traced.try_except, Traced.bind,
    Traced.emit, Traced.call, Traced.raise.
  rewrite H1, H2. simpl. rewrite H3.
  destruct o as [[]|e']; simpl; rewrite ?app_nil_r, <- ?app_assoc; reflexivity.
Qed.

Lemma execute_end_raised self (args : Arg) st st1 t1 result st2 error st3 t3 o st4 t4 :
  _trigger_start self args st = (Returned tt, st1, t1) ->
  run self args st1 = (Returned result, st2) ->
  _trigger_end self result st2 = (Raised error, st3, t3) ->
  _trigger_error self error st3 = (o, st4, t4) ->
  execute self args st =
    (match o with Returned _ => Raised error | Raised e' => Raised e' end,
     st4, t1 ++ [RunCall args] ++ t3 ++ t4).
Proof.
  intros H1 H2 H3 H4. unfold execute, Traced.try_except, Traced.bind,
    Traced.emit, Traced.call, Traced.raise.
  rewrite H1, H2, H3. simpl. rewrite H4.
  destruct o as [[]|e']; simpl; rewrite ?app_nil_r, <- ?app_assoc; reflexivity.
Qed.

Lemma execute_start_raised self (args : Arg) st error st1 t1 o st2 t2 :
  _trigger_start self args st = (Raised error, st1, t1) ->
  _trigger_error self error st1 = (o, st2, t2) ->
  execute self args st =
    (match o with Returned _ => Raised error | Raised e' => Raised e' end,
     st2, t1 ++ t2).
Proof.
  intros H1 H2. unfold execute, Traced.try_except, Traced.bind, Traced.raise.
  rewrite H1, H2.
  destruct o as [[]|e']; simpl; rewrite ?app_nil_r; reflexivity.
Qed.

Lemma no_error_in_success_trace self (args : Arg) (result : Res) :
  ~ fires_error (start_events self args ++ [RunCall args] ++ end_events self result).
Proof.
  intros (i & e & Hin). unfold start_events, end_events in Hin.
  rewrite !in_app_iff, !in_map_iff in Hin. simpl in Hin.
  destruct Hin as [(j & Hj & _) | [[Hj | []] | (j & Hj & _)]]; discriminate.
Qed.

Lemma no_end_in_failure_trace self (args : Arg) (error : exc) :
  ~ fires_end (start_events self args ++ [RunCall args] ++ error_events self error).
Proof.
  intros (i & r & Hin). unfold start_events, error_events in Hin.
  rewrite !in_app_iff, !in_map_iff in Hin. simpl in Hin.
  destruct Hin as [(j & Hj & _) | [[Hj | []] | (j & Hj & _)]]; discriminate.
Qed.

(** [execute] returns only what [run] returned. *)
Lemma execute_returned_inv self (args : Arg) st result st' trace :
  execute self args st = (Returned result, st', trace) ->
  exists starts st1 st2,
    _trigger_start self args st = (Returned tt, st1, starts) /\
    run self args st1 = (Returned result, st2).
Proof.
  unfold execute, Traced.try_except, Traced.bind, Traced.emit, Traced.call,
    Traced.ret, Traced.raise.
  destruct (_trigger_start self args st) as [[[[]|e0] st1] t1].
  - destruct (run self args st1) as [[r|e1] st2] eqn:Hrun; cbn.
    + destruct (_trigger_end self r st2) as [[[[]|e2] st3] t3]; cbn.
      * intros [= <- <- <-]. eexists _, _, _. split; [reflexivity | exact Hrun].
      * destruct (_trigger_error self e2 st3) as [[[[]|e3] st4] t4]; discriminate.
    + destruct (_trigger_error self e1 st2) as [[[[]|e3] st4] t4]; discriminate.
  - destruct (_trigger_error self e0 st1) as [[[[]|e3] st4] t4]; discriminate.
Qed.

(** When [run] raises, so does [execute]. *)
Lemma execute_raises_when_run_raises self (args : Arg) st starts st1 error st2 :
  _trigger_start self args st = (Returned tt, st1, starts) ->
  run self args st1 = (Raised error, st2) ->
  exists error' st' trace, execute self args st = (Raised error', st', trace).
Proof.
  intros Hstart Hrun.
  destruct (_trigger_error self error st2) as [[o st3] t3] eqn:Herror.
  rewrite (execute_run_raised self args _ _ _ _ _ _ _ _ Hstart Hrun Herror).
  destruct o as [[]|e']; eexists _, _, _; reflexivity.
Qed.

End FrameworkFacts.

(** ** The contract of [execute] *)

Section ExecuteContract.
Context {St Arg Res : Type}.
Implicit Types (self : Agent St Arg Res).

(** C1, for plugins whose hooks do not raise: one [execute] call runs
    every [on_agent_start] hook once, in attachment order, then [run]
    once; when [run] returns, every [on_agent_end] hook once with the
    result, in attachment order, and the result is returned as it is;
    when [run] raises, every [on_agent_error] hook once with the
    error, in attachment order, and the same error is raised again;
    end and error hooks never fire in the same call. *)
Theorem execute_fires_hooks_once self (args : Arg) (st : St) :
  hooks_return self -> execute_contract self args st.
Proof.
  intros Hret. unfold execute_contract.
  destruct (_trigger_start_returns self args st Hret) as [st1 Hstart].
  exists st1. split; [exact Hstart|].
  destruct (run self args st1) as [[result|error] st2] eqn:Hrun.
  - destruct (_trigger_end_returns self result st2 Hret) as [st3 Hend].
    pose proof (execute_run_returned self args _ _ _ _ _ _ _ Hstart Hrun Hend) as Hexec.
    split; [exists st3; split; assumption|].
    rewrite Hexec. intros [_ Herr].
    exact (no_error_in_success_trace self args result Herr).
  - destruct (_trigger_error_returns self error st2 (hooks_return_error self Hret))
      as [st3 Herror].
    pose proof (execute_run_raised self args _ _ _ _ _ _ _ _ Hstart Hrun Herror) as Hexec.
    simpl in Hexec.
    split; [exists st3; split; assumption|].
    rewrite Hexec. intros [Hend _].
    exact (no_end_in_failure_trace self args error Hend).
Qed.

(** C9, for plugins whose [on_agent_error] hooks do not raise: when
    [run] returns and an [on_agent_end] hook raises, the end hooks up
    to the raising one have fired, every [on_agent_error] hook fires
    with that exception, and the exception reaches the caller instead
    of [run]'s result. *)
Theorem execute_end_hook_failure self (args : Arg) (st : St) :
  error_hooks_return self -> end_hook_failure_contract self args st.
Proof.
  intros Hret starts st1 result st2 error st3 ends Hstart Hrun Hend.
  split; [|split].
  - unfold _trigger_start in Hstart.
    rewrite (for_each_plugin_returned _ _ _ _ _ _ _ _ Hstart).
    unfold start_events. f_equal. apply positions_where_start.
  - unfold _trigger_end in Hend.
    destruct (for_each_plugin_raised _ _ _ _ _ _ _ _ Hend) as (k & Hin & Hends).
    exists k. split; [exact Hin|].
    rewrite Hends. f_equal. apply positions_where_end.
  - destruct (_trigger_error_returns self error st3 Hret) as [st4 Herror].
    exists st4. split; [exact Herror|].
    exact (execute_end_raised self args _ _ _ _ _ _ _ _ _ _ _ Hstart Hrun Hend Herror).
Qed.

End ExecuteContract.

(** The contract of [execute] fails for a plugin list in which an end
    hook raises: with [journal_plugin; brittle_end_plugin] attached,
    [run] returns 8, yet the caller gets the hook's exception, and the
    journal plugin sees both its end hook and its error hook called. *)
Lemma execute_contract_broken_by_raising_hook :
  execute (successor_agent [journal_plugin; brittle_end_plugin]) 7 []
  = (Raised (Exc ValueError "end hook failed"),
     ["start"; "end"; "error"],
     [StartHook 0 7; RunCall 7; EndHook 0 8; EndHook 1 8;
      ErrorHook 0 (Exc ValueError "end hook failed")])
  /\ ~ execute_contract (successor_agent [journal_plugin; brittle_end_plugin]) 7 [].
Proof.
  split; [reflexivity|].
  intros (st1 & Hstart & Hrun & _).
  injection Hstart as <-. cbn in Hrun.
  destruct Hrun as (st3 & Hend & _). discriminate Hend.
Qed.

Lemma execute_fires_hooks_once_witness :
  hooks_return (successor_agent [journal_plugin; journal_plugin]) /\
  execute_contract (successor_agent [journal_plugin; journal_plugin]) 7 [].
Proof.
  assert (hooks_return (successor_agent [journal_plugin; journal_plugin])) as Hret.
  { intros p [<-|[<-|[]]]; repeat split; intros h name x st [= <-]; eexists; reflexivity. }
  split; [exact Hret|].
  exact (execute_fires_hooks_once _ 7 [] Hret).
Defined.

(** The contract for a failing end hook breaks when an error hook
    raises as well: with [brittle_end_plugin; brittle_error_plugin;
    journal_plugin] attached, the caller gets the error hook's
    exception and the journal plugin's error hook is never called. *)
Lemma end_hook_failure_contract_broken_by_raising_error_hook :
  execute (successor_agent [brittle_end_plugin; brittle_error_plugin; journal_plugin]) 7 []
  = (Raised (Exc ValueError "error hook failed"),
     ["start"],
     [StartHook 2 7; RunCall 7; EndHook 0 8;
      ErrorHook 1 (Exc ValueError "end hook failed")])
  /\ ~ end_hook_failure_contract
        (successor_agent [brittle_end_plugin; brittle_error_plugin; journal_plugin]) 7 [].
Proof.
  split; [reflexivity|].
  intros Hcontract.
  destruct (Hcontract [StartHook 2 7] ["start"] 8 ["start"]
              (Exc ValueError "end hook failed") ["start"] [EndHook 0 8]
              eq_refl eq_refl eq_refl) as (_ & _ & st4 & Herror & _).
  discriminate Herror.
Qed.

Lemma execute_end_hook_failure_witness :
  error_hooks_return (successor_agent [journal_plugin; brittle_end_plugin]) /\
  execute (successor_agent [journal_plugin; brittle_end_plugin]) 7 []
  = (Raised (Exc ValueError "end hook failed"),
     ["start"; "end"; "error"],
     [StartHook 0 7; RunCall 7; EndHook 0 8; EndHook 1 8;
      ErrorHook 0 (Exc ValueError "end hook failed")]).
Proof.
  assert (error_hooks_return (successor_agent [journal_plugin; brittle_end_plugin])) as Hret.
  { intros p h name error st [<-|[<-|[]]]; intros [= <-]. eexists; reflexivity. }
  split; [exact Hret|].
  destruct (execute_end_hook_failure _ 7 [] Hret
              [StartHook 0 7] ["start"] 8 ["start"]
              (Exc ValueError "end hook failed") ["start"; "end"]
              [EndHook 0 8; EndHook 1 8] eq_refl eq_refl eq_refl)
    as (_ & _ & st4 & Herror & Hexec).
  injection Herror as <-. exact Hexec.
Defined.

(** ** The validation stage *)

Section Validation.
Context {St : Type}.

(** [TestAgent.run] on a dict, case by case. *)
Lemma TestAgent_run_dict (entries : list (string * pyval)) (insights : pyval) (st : St) :
  TestAgent_run (VDict entries, insights) st =
    (match dict_lookup "totalFollowers" entries with
     | Some v =>
         if truthy v
         then if truthy insights && is_str insights
              then Returned true
              else Raised InvalidInsight
         else Raised InvalidData
     | None => Raised InvalidData
     end, st).
Proof.
  unfold TestAgent_run, py_get.
  destruct entries as [|entry rest]; [reflexivity|].
  cbn [truthy negb].
  destruct (dict_lookup "totalFollowers" (entry :: rest)) as [v|]; [|reflexivity].
  destruct (truthy v); [|reflexivity].
  destruct (truthy insights), (is_str insights); reflexivity.
Qed.

Lemma TestAgent_run_none (insights : pyval) (st : St) :
  TestAgent_run (VNone, insights) st = (Raised InvalidData, st).
Proof. reflexivity. Qed.

(** C5, with the success case narrowed to what the code accepts: the
    stage raises the invalid-data condition when the raw value is
    absent or is a dict without the follower-count field; for a dict
    whose follower count is truthy it raises the invalid-insight
    condition when the insight is absent or not a string, and it
    returns for every insight that is a non-empty string. *)
Theorem TestAgent_run_checks (data insights : pyval) (st : St) :
  (lacks_follower_count data ->
     TestAgent_run (data, insights) st = (Raised InvalidData, st)) /\
  (forall entries v,
     data = VDict entries -> dict_lookup "totalFollowers" entries = Some v ->
     truthy v = true ->
     (insights = VNone \/ is_str insights = false ->
        TestAgent_run (data, insights) st = (Raised InvalidInsight, st)) /\
     (forall text, insights = VStr text -> text <> "" ->
        TestAgent_run (data, insights) st = (Returned true, st))).
Proof.
  split.
  - intros [-> | (entries & -> & Hnone)].
    + apply TestAgent_run_none.
    + rewrite TestAgent_run_dict, Hnone. reflexivity.
  - intros entries v -> Hv Htruthy. rewrite TestAgent_run_dict, Hv, Htruthy.
    split.
    + intros [-> | ->]; [reflexivity|].
      rewrite andb_false_r. reflexivity.
    + intros text -> Htext. cbn.
      destruct (String.eqb_spec text ""); [contradiction|reflexivity].
Qed.

(** C8: a follower-count field that is present but falsy is rejected
    with the invalid-data condition. *)
Theorem TestAgent_run_falsy_follower_count
    (entries : list (string * pyval)) (v insights : pyval) (st : St) :
  dict_lookup "totalFollowers" entries = Some v ->
  truthy v = false ->
  TestAgent_run (VDict entries, insights) st = (Raised InvalidData, st).
Proof.
  intros Hv Hfalsy. rewrite TestAgent_run_dict, Hv, Hfalsy. reflexivity.
Qed.

End Validation.

(** The validation stage is not a pure shape check: a raw value whose
    follower count is present and 0, with a well-formed insight, is
    rejected. *)
Lemma validation_is_not_shape_check :
  TestAgent_run (VDict [("totalFollowers", VInt 0)], VStr "ok") tt
  = (Raised InvalidData, tt)
  /\ ~ validation_is_shape_check.
Proof.
  split; [reflexivity|].
  intros Hshape.
  destruct (Hshape (VDict [("totalFollowers", VInt 0)]) (VStr "ok") tt) as (_ & _ & Hok).
  assert (TestAgent_run (VDict [("totalFollowers", VInt 0)], VStr "ok") tt
          = (Returned true, tt)) as Habs.
  { apply Hok.
    - exists [("totalFollowers", VInt 0)], (VInt 0). split; reflexivity.
    - exists "ok". reflexivity. }
  discriminate Habs.
Qed.

Lemma TestAgent_run_checks_witness :
  TestAgent_run (VDict [("totalFollowers", VInt 24583)], VStr "ok") tt
  = (Returned true, tt).
Proof.
  destruct (TestAgent_run_checks (VDict [("totalFollowers", VInt 24583)]) (VStr "ok") tt)
    as [_ Hdict].
  destruct (Hdict [("totalFollowers", VInt 24583)] (VInt 24583) eq_refl eq_refl eq_refl)
    as (_ & Hok).
  apply (Hok "ok" eq_refl). discriminate.
Defined.

Lemma TestAgent_run_falsy_follower_count_witness :
  TestAgent_run (VDict [("totalFollowers", VStr "")], VStr "ok") tt
  = (Raised InvalidData, tt).
Proof.
  apply (TestAgent_run_falsy_follower_count
           [("totalFollowers", VStr "")] (VStr "") (VStr "ok") tt);
    reflexivity.
Defined.

(** ** The storage service *)

(** C10: both save operations return [True] whatever is stored
    already, the matching getter then returns the value just saved, and
    a second save for the same user replaces the first. *)
Theorem storage_save_then_get (self : StorageService) (user_id : Z)
    (data data' : pyval) (insight insight' : string) :
  (exists self',
     save_snapchat_data user_id data self = (Returned true, self') /\
     get_snapchat_data user_id self' = (Returned (Some data), self')) /\
  (exists self',
     save_ai_insight user_id insight self = (Returned true, self') /\
     get_ai_insight user_id self' = (Returned (Some insight), self')) /\
  (exists self',
     (_ <- save_snapchat_data user_id data ;;
      _ <- save_snapchat_data user_id data' ;;
      get_snapchat_data user_id)%body self = (Returned (Some data'), self')) /\
  (exists self',
     (_ <- save_ai_insight user_id insight ;;
      _ <- save_ai_insight user_id insight' ;;
      get_ai_insight user_id)%body self = (Returned (Some insight'), self')).
Proof.
  split; [|split; [|split]].
  - eexists. split; [reflexivity|].
    unfold get_snapchat_data. cbn. rewrite lookup_insert_eq. reflexivity.
  - eexists. split; [reflexivity|].
    unfold get_ai_insight. cbn. rewrite lookup_insert_eq. reflexivity.
  - eexists. unfold Body.bind, save_snapchat_data, get_snapchat_data. cbn.
    rewrite lookup_insert_eq. reflexivity.
  - eexists. unfold Body.bind, save_ai_insight, get_ai_insight. cbn.
    rewrite lookup_insert_eq. reflexivity.
Qed.

(** ** Stage sequencing in the orchestrator *)

Section Sequencing.
Context (lib : PythonLib) {St : Type}.
Implicit Types (self : OrchestratorAgent St).

Ltac next_stage :=
  match goal with
  | |- context [execute ?a ?x ?s] =>
      let o := fresh "o" in
      let st := fresh "st" in
      let t := fresh "t" in
      destruct (execute a x s) as [[[o|o] st] t] eqn:?
  end.

Ltac next_decode :=
  match goal with
  | |- context [parse_snapchat_artifact ?l ?a ?s] =>
      let H := fresh "Hparse" in
      destruct (parse_snapchat_artifact l a s) as [[?|?] ?] eqn:H
  | |- context [decode_content ?l ?a ?s] =>
      let H := fresh "Hdecode" in
      destruct (decode_content l a s) as [[?|?] ?] eqn:H
  end.

Ltac unfold_run :=
  unfold OrchestratorAgent_run, Traced.bind, Traced.call, Traced.ret, stage.

Lemma parse_snapchat_artifact_returned (artifact : Artifact) (st st' : St) data :
  parse_snapchat_artifact lib artifact st = (Returned data, st') ->
  loads_content lib (artifact_content artifact) = Returned data /\ st' = st.
Proof.
  unfold parse_snapchat_artifact.
  destruct (loads_content lib (artifact_content artifact)) as [v|e].
  - intros [= -> ->]. split; reflexivity.
  - destruct (is_decode_error (exc_type e)); discriminate.
Qed.

Lemma decode_content_returned (artifact : Artifact) (st st' : St) text :
  decode_content lib artifact st = (Returned text, st') ->
  bytes_decode lib (artifact_content artifact) = Returned text /\ st' = st.
Proof.
  unfold decode_content.
  destruct (bytes_decode lib (artifact_content artifact)) as [v|e].
  - intros [= -> ->]. split; reflexivity.
  - discriminate.
Qed.

(** The three ways a run can go: all six stages return and the
    bundle holds the two decoded artifacts; or one stage raises after
    the stages before it returned; or decoding the artifacts fails
    between Analysis and Validation. *)
Lemma run_cases self (user_id : Z) (st : St) out st' log :
  OrchestratorAgent_run lib self user_id st = (out, st', log) ->
  (exists bundle data_artifact insight_artifact st_a t_a st_b t_b,
     out = Returned bundle /\ log = all_stages_returned /\
     execute (snapchat_fetcher self) user_id st = (Returned data_artifact, st_a, t_a) /\
     execute (data_analyzer self) data_artifact st_a
       = (Returned insight_artifact, st_b, t_b) /\
     loads_content lib (artifact_content data_artifact)
       = Returned (snapchatData bundle) /\
     bytes_decode lib (artifact_content insight_artifact)
       = Returned (insights bundle)) \/
  (exists s error,
     out = Raised error /\
     log = stages_before s ++ [StageCalled s; StageRaised s error]) \/
  (exists error, out = Raised error /\ log = stages_before Validation).
Proof.
  unfold_run.
  repeat (first [next_stage | next_decode]; cbn [app]);
    intros [= <- <- <-];
    try solve [
      right; left;
      (exists Fetch + exists Analysis + exists Validation
       + exists Safety + exists Evaluation + exists Persistence);
      eexists; split; reflexivity ];
    try solve [ right; right; eexists; split; reflexivity ].
  left.
  apply parse_snapchat_artifact_returned in Hparse as [Hparse _].
  apply decode_content_returned in Hdecode as [Hdecode _].
  eexists _, _, _, _, _, _, _. repeat split; eassumption.
Qed.

Lemma stages_before_no_failure (s s' : Stage) (error : exc) :
  ~ In (StageRaised s' error) (stages_before s).
Proof.
  destruct s; cbn; intros Hin;
    repeat (destruct Hin as [Hin | Hin]; try discriminate Hin);
    contradiction.
Qed.

Lemma stages_before_earlier (s s' : Stage) :
  In (StageCalled s') (stages_before s) -> stage_after s' s.
Proof.
  unfold stage_after.
  destruct s; cbn; intros Hin;
    repeat (destruct Hin as [Hin | Hin];
            [try discriminate Hin; try (injection Hin as <-; cbn; lia)|]);
    contradiction.
Qed.

(** A run whose log shows a stage raising ended there, with that
    exception. *)
Lemma run_log_failure self (user_id : Z) (st : St) out st' log s error :
  OrchestratorAgent_run lib self user_id st = (out, st', log) ->
  In (StageRaised s error) log ->
  out = Raised error /\
  log = stages_before s ++ [StageCalled s; StageRaised s error].
Proof.
  intros Hrun Hin.
  destruct (run_cases _ _ _ _ _ _ Hrun)
    as [(b & a1 & a2 & sa & ta & sb & tb & -> & -> & _)
       | [(s0 & e0 & -> & ->) | (e0 & -> & ->)]].
  - exfalso. cbn in Hin.
    repeat (destruct Hin as [Hin | Hin]; try discriminate Hin).
    contradiction.
  - apply in_app_iff in Hin as [Hin | Hin].
    { exfalso. exact (stages_before_no_failure _ _ _ Hin). }
    cbn in Hin. destruct Hin as [Hin | [Hin | []]]; [discriminate Hin|].
    injection Hin as -> ->. split; reflexivity.
  - exfalso. exact (stages_before_no_failure _ _ _ Hin).
Qed.

Lemma failure_log_no_later_stage (s later : Stage) (error : exc) :
  stage_after s later ->
  ~ In (StageCalled later) (stages_before s ++ [StageCalled s; StageRaised s error]).
Proof.
  intros Hlater Hcalled.
  apply in_app_iff in Hcalled as [Hcalled | Hcalled].
  - apply stages_before_earlier in Hcalled. unfold stage_after in *. lia.
  - cbn in Hcalled. destruct Hcalled as [Hcalled | [Hcalled | []]];
      [|discriminate Hcalled].
    injection Hcalled as <-. unfold stage_after in Hlater. lia.
Qed.

(** C2: whatever the six sub-agents do, once a stage raises no later
    stage is called in that run, and the run raises that very
    exception. *)
Theorem run_stops_at_failure self (user_id : Z) (st : St) out st' log s error :
  OrchestratorAgent_run lib self user_id st = (out, st', log) ->
  In (StageRaised s error) log ->
  out = Raised error /\
  forall later, stage_after s later -> ~ In (StageCalled later) log.
Proof.
  intros Hrun Hin.
  destruct (run_log_failure _ _ _ _ _ _ _ _ Hrun Hin) as [-> ->].
  split; [reflexivity|].
  intros later Hlater. apply failure_log_no_later_stage. exact Hlater.
Qed.

(** C7: the caller gets a bundle only from a run in which all six
    stages returned, and the bundle holds the decoded contents of the
    artifacts the Fetch and Analysis stages returned; when a stage
    raises, [execute] raises and returns nothing. *)
Theorem bundle_only_after_all_stages self (user_id : Z) (st : St) :
  (forall bundle st' trace,
     execute (OrchestratorAgent_agent lib self) user_id st
       = (Returned bundle, st', trace) ->
     exists starts st1 st2 data_artifact insight_artifact st_a t_a st_b t_b,
       _trigger_start (OrchestratorAgent_agent lib self) user_id st
         = (Returned tt, st1, starts) /\
       OrchestratorAgent_run lib self user_id st1
         = (Returned bundle, st2, all_stages_returned) /\
       execute (snapchat_fetcher self) user_id st1
         = (Returned data_artifact, st_a, t_a) /\
       execute (data_analyzer self) data_artifact st_a
         = (Returned insight_artifact, st_b, t_b) /\
       loads_content lib (artifact_content data_artifact)
         = Returned (snapchatData bundle) /\
       bytes_decode lib (artifact_content insight_artifact)
         = Returned (insights bundle)) /\
  (forall starts st1 out st2 log s error,
     _trigger_start (OrchestratorAgent_agent lib self) user_id st
       = (Returned tt, st1, starts) ->
     OrchestratorAgent_run lib self user_id st1 = (out, st2, log) ->
     In (StageRaised s error) log ->
     exists error' st' trace,
       execute (OrchestratorAgent_agent lib self) user_id st
         = (Raised error', st', trace)).
Proof.
  split.
  - intros bundle st' trace Hexec.
    apply execute_returned_inv in Hexec as (starts & st1 & st2 & Hstart & Hrun).
    cbn [run OrchestratorAgent_agent] in Hrun. unfold Traced.forget in Hrun.
    destruct (OrchestratorAgent_run lib self user_id st1) as [[out st3] log] eqn:Horch.
    injection Hrun as -> ->.
    destruct (run_cases _ _ _ _ _ _ Horch)
      as [(b & a1 & a2 & sa & ta & sb & tb & Hb & -> & Hf & Ha & Hdata & Hinsight)
         | [(s0 & e0 & Hb & _) | (e0 & Hb & _)]];
      try discriminate Hb.
    injection Hb as <-.
    exists starts, st1, st2, a1, a2, sa, ta, sb, tb. repeat split; assumption.
  - intros starts st1 out st2 log s error Hstart Hrun Hin.
    destruct (run_log_failure _ _ _ _ _ _ _ _ Hrun Hin) as [-> _].
    eapply execute_raises_when_run_raises; [exact Hstart|].
    cbn [run OrchestratorAgent_agent]. unfold Traced.forget.
    rewrite Hrun. reflexivity.
Qed.

End Sequencing.

(** ** The pipeline as [OrchestratorAgent.__init__] builds it *)

Section BuiltPipeline.
Context (lib : PythonLib).

Lemma credential_unset_falsy (field : option string) :
  credential_unset field -> opt_str_truthy field = false.
Proof. intros [-> | ->]; reflexivity. Qed.

(** [execute] of an agent whose one plugin is the logging plugin. *)
Lemma execute_logging_plugin {Arg Res : Type} (self : Agent Store Arg Res)
    (args : Arg) (st : Store) :
  _plugins self = [LoggingPlugin] ->
  execute self args st =
    match run self args (log_start (class_name self) st) with
    | (Returned result, st2) =>
        (Returned result, log_end (class_name self) st2,
         [StartHook 0 args; RunCall args; EndHook 0 result])
    | (Raised error, st2) =>
        (Raised error, log_error (class_name self) error st2,
         [StartHook 0 args; RunCall args; ErrorHook 0 error])
    end.
Proof.
  intros Hplugins.
  unfold execute, _trigger_start, _trigger_end, _trigger_error.
  rewrite Hplugins.
  unfold Traced.try_except, Traced.bind, Traced.emit, Traced.call, Traced.ret,
    Traced.raise, log_start, log_end, log_error, logged. cbn.
  destruct (run self args _) as [[result|error] st2]; reflexivity.
Qed.

(** The fetch agent without usable credentials. *)
Lemma SnapchatDataFetcherAgent_run_missing (user_id : Z) (st : Store) :
  credentials_missing st user_id ->
  SnapchatDataFetcherAgent_run lib user_id st = (Raised (MissingCredentials user_id), st).
Proof.
  unfold credentials_missing, SnapchatDataFetcherAgent_run, Body.bind, on_storage,
    get_user.
  destruct st as [sto arts logs rt ct]. cbn.
  destruct (_users sto !! user_id) as [user|]; [|reflexivity].
  intros [Hid | Hkey]; apply credential_unset_falsy in Hid || apply credential_unset_falsy in Hkey.
  - rewrite Hid. reflexivity.
  - rewrite Hkey, orb_true_r. reflexivity.
Qed.

(** *** The mock services do not touch the log *)

Lemma log_blind_ret {A} (a : A) : log_blind (Body.ret a).
Proof. intros records st. reflexivity. Qed.

Lemma log_blind_bind {A B} (m : Body Store A) (k : A -> Body Store B) :
  log_blind m -> (forall a, log_blind (k a)) -> log_blind (Body.bind m k).
Proof.
  intros Hm Hk records st. unfold Body.bind. rewrite Hm.
  destruct (m st) as [[a|e] st1]; [apply Hk|reflexivity].
Qed.

Lemma log_blind_random_draw : log_blind random_draw.
Proof. intros records st. reflexivity. Qed.

Lemma log_blind_datetime_now : log_blind datetime_now.
Proof. intros records st. reflexivity. Qed.

Lemma log_blind_random_randint (a b : Z) : log_blind (random_randint a b).
Proof.
  apply log_blind_bind; [apply log_blind_random_draw|].
  intros r. apply log_blind_ret.
Qed.

Lemma log_blind_followers_loop (base_date : Z) (indices : list nat) :
  forall data, log_blind (followers_loop lib base_date indices data).
Proof.
  induction indices as [|i rest IH]; intros data; cbn [followers_loop].
  - apply log_blind_ret.
  - apply log_blind_bind; [apply log_blind_random_randint|].
    intros noise. apply IH.
Qed.

Lemma log_blind_fetch_snapchat_data (client_id api_key : string) :
  log_blind (fetch_snapchat_data lib client_id api_key).
Proof.
  unfold fetch_snapchat_data.
  destruct (negb (truthy (VStr client_id)) || negb (truthy (VStr api_key))).
  - intros records st. reflexivity.
  - apply log_blind_bind; [apply log_blind_datetime_now|]. intros last_updated.
    apply log_blind_bind.
    + unfold generate_followers_data.
      apply log_blind_bind; [apply log_blind_datetime_now|]. intros now.
      apply log_blind_followers_loop.
    + intros followers. apply log_blind_ret.
Qed.

(** The follower count is the first item of what the upstream fetch
    returns. *)
Lemma fetch_snapchat_data_shape (client_id api_key : string) (st st' : Store) data :
  fetch_snapchat_data lib client_id api_key st = (Returned data, st') ->
  exists rest, data = VDict (("totalFollowers", VInt 24583) :: rest).
Proof.
  unfold fetch_snapchat_data.
  destruct (negb (truthy (VStr client_id)) || negb (truthy (VStr api_key)));
    [discriminate|].
  unfold Body.bind at 1. destruct (datetime_now st) as [[last_updated|e] st1];
    [|discriminate].
  unfold Body.bind at 1.
  destruct (generate_followers_data lib st1) as [[followers|e] st2]; [|discriminate].
  intros [= <- <-]. eexists. reflexivity.
Qed.

Lemma insights_pool_nonempty (insight : string) :
  In insight insights_pool -> insight <> "".
Proof.
  unfold insights_pool. cbn [In].
  intros Hin; repeat (destruct Hin as [<- | Hin]; [discriminate|]); contradiction.
Qed.

(** The insight service returns one of its eight texts. *)
Lemma generate_ai_insight_returns (snapchat_data : pyval) (st : Store) :
  exists insight st',
    generate_ai_insight snapchat_data st = (Returned insight, st') /\
    In insight insights_pool.
Proof.
  unfold generate_ai_insight, random_choice, Body.bind, random_draw, Body.ret.
  eexists _, _. split; [reflexivity|].
  apply nth_In. apply Nat.mod_upper_bound. discriminate.
Qed.

(** [stage] for an agent whose one plugin is the logging plugin. *)
Lemma stage_logging_plugin_returned {Arg Res : Type} (s : Stage)
    (self : Agent Store Arg Res) (args : Arg) (st st2 : Store) (result : Res) :
  _plugins self = [LoggingPlugin] ->
  run self args (log_start (class_name self) st) = (Returned result, st2) ->
  stage s self args st
  = (Returned result, log_end (class_name self) st2, [StageCalled s; StageReturned s]).
Proof.
  intros Hplugins Hrun. unfold stage.
  rewrite execute_logging_plugin by exact Hplugins. rewrite Hrun. reflexivity.
Qed.

Lemma Traced_bind_returned {St Ev A B} (m : Traced St Ev A) (k : A -> Traced St Ev B)
    (st st1 : St) (a : A) (t1 : list Ev) :
  m st = (Returned a, st1, t1) ->
  Traced.bind m k st = let '(o, st2, t2) := k a st1 in (o, st2, t1 ++ t2).
Proof. intros Hm. unfold Traced.bind. rewrite Hm. reflexivity. Qed.

(** The fetch agent for a subject with both credentials. *)
Lemma SnapchatDataFetcherAgent_run_returns (user_id : Z) (st st_f : Store)
    (user : User) (client_id api_key : string) (data : pyval) :
  _users (storage st) !! user_id = Some user ->
  snapchat_client_id user = Some client_id -> client_id <> "" ->
  snapchat_api_key user = Some api_key -> api_key <> "" ->
  fetch_snapchat_data lib client_id api_key st = (Returned data, st_f) ->
  exists st',
    SnapchatDataFetcherAgent_run lib user_id st
    = (Returned {| artifact_name := "snapchat-data-" +:+ str_of_int user_id;
                   artifact_content := str_encode lib (json_dumps lib data);
                   artifact_mime_type := "application/json" |}, st').
Proof.
  intros Huser Hid Hid_ne Hkey Hkey_ne Hfetch.
  unfold SnapchatDataFetcherAgent_run.
  unfold Body.bind at 1. unfold on_storage, get_user. rewrite Huser.
  rewrite Hid, Hkey. cbn [opt_str_truthy str_value].
  destruct (String.eqb_spec client_id ""); [contradiction|].
  destruct (String.eqb_spec api_key ""); [contradiction|].
  cbn [negb orb].
  unfold Body.bind at 1.
  change {| storage := storage st; artifacts := artifacts st;
            log_records := log_records st; random_tape := random_tape st;
            clock_tape := clock_tape st |} with (with_log (log_records st) st).
  rewrite log_blind_fetch_snapchat_data, Hfetch.
  eexists. reflexivity.
Qed.

(** The analysis agent on an artifact that decodes. *)
Lemma DataAnalysisAgent_run_returns (artifact : Artifact) (data : pyval) (st : Store) :
  loads_content lib (artifact_content artifact) = Returned data ->
  exists insight st',
    DataAnalysisAgent_run lib artifact st
    = (Returned {| artifact_name := "insight-" +:+ artifact_name artifact;
                   artifact_content := str_encode lib insight;
                   artifact_mime_type := "text/plain" |}, st') /\
    In insight insights_pool.
Proof.
  intros Hloads.
  destruct (generate_ai_insight_returns data st) as (insight & st1 & Hgen & Hin).
  exists insight. eexists. split; [|exact Hin].
  unfold DataAnalysisAgent_run. unfold Body.bind at 1.
  unfold parse_snapchat_artifact. rewrite Hloads. unfold Body.ret at 1.
  unfold Body.bind at 1. rewrite Hgen. reflexivity.
Qed.

(** C4: for a subject without usable credentials the run raises the
    missing-credentials condition out of the Fetch stage; the artifact
    store and the storage service are as they were before the run. *)
Theorem missing_credentials_fail_before_any_write (user_id : Z) (st : Store) :
  credentials_missing st user_id ->
  exists st' trace st1 st2,
    execute (OrchestratorAgent_agent lib (OrchestratorAgent_init lib)) user_id st
      = (Raised (MissingCredentials user_id), st', trace) /\
    artifacts st' = artifacts st /\
    storage st' = storage st /\
    _trigger_start (OrchestratorAgent_agent lib (OrchestratorAgent_init lib)) user_id st
      = (Returned tt, st1, [StartHook 0 user_id]) /\
    OrchestratorAgent_run lib (OrchestratorAgent_init lib) user_id st1
      = (Raised (MissingCredentials user_id), st2,
         [StageCalled Fetch; StageRaised Fetch (MissingCredentials user_id)]).
Proof.
  intros Hmissing.
  assert (OrchestratorAgent_run lib (OrchestratorAgent_init lib) user_id
            (log_start "OrchestratorAgent" st)
          = (Raised (MissingCredentials user_id),
             log_error "SnapchatDataFetcherAgent" (MissingCredentials user_id)
               (log_start "SnapchatDataFetcherAgent" (log_start "OrchestratorAgent" st)),
             [StageCalled Fetch; StageRaised Fetch (MissingCredentials user_id)]))
    as Hrun.
  { unfold OrchestratorAgent_run, Traced.bind, stage.
    rewrite execute_logging_plugin by reflexivity.
    cbn [snapchat_fetcher OrchestratorAgent_init add_plugin new_agent run class_name].
    rewrite SnapchatDataFetcherAgent_run_missing by exact Hmissing.
    reflexivity. }
  eexists _, _, _, _. split; [|split; [|split; [|split]]].
  - rewrite execute_logging_plugin by reflexivity.
    cbn [OrchestratorAgent_agent run class_name]. unfold Traced.forget.
    rewrite Hrun. reflexivity.
  - reflexivity.
  - reflexivity.
  - reflexivity.
  - exact Hrun.
Qed.


(** C3: for a subject whose record holds both credentials, non-empty,
    the run goes through all six stages and returns a bundle whose
    raw data is the value the upstream fetch returned and whose
    insight is one of the service's non-empty texts.  The library is
    asked for what the claim takes for granted: that writing this
    value as JSON and reading it back gives the value, and likewise
    for encoding and decoding the insight texts. *)
Theorem full_run_returns_upstream_data (user_id : Z) (st st_f : Store)
    (user : User) (client_id api_key : string) (data : pyval) :
  _users (storage st) !! user_id = Some user ->
  snapchat_client_id user = Some client_id -> client_id <> "" ->
  snapchat_api_key user = Some api_key -> api_key <> "" ->
  fetch_snapchat_data lib client_id api_key st = (Returned data, st_f) ->
  loads_content lib (str_encode lib (json_dumps lib data)) = Returned data ->
  (forall text, In text insights_pool ->
     bytes_decode lib (str_encode lib text) = Returned text) ->
  exists insight st' trace st1 st2,
    execute (OrchestratorAgent_agent lib (OrchestratorAgent_init lib)) user_id st
      = (Returned {| snapchatData := data; insights := insight |}, st', trace) /\
    In insight insights_pool /\
    insight <> "" /\
    _trigger_start (OrchestratorAgent_agent lib (OrchestratorAgent_init lib)) user_id st
      = (Returned tt, st1, [StartHook 0 user_id]) /\
    OrchestratorAgent_run lib (OrchestratorAgent_init lib) user_id st1
      = (Returned {| snapchatData := data; insights := insight |}, st2,
         all_stages_returned).
Proof.
  intros Huser Hid Hid_ne Hkey Hkey_ne Hfetch Hjson Htext.
  set (st1 := log_start "OrchestratorAgent" st).
  (* Fetch *)
  assert (fetch_snapchat_data lib client_id api_key
            (log_start "SnapchatDataFetcherAgent" st1)
          = (Returned data,
             with_log (log_records (log_start "SnapchatDataFetcherAgent" st1)) st_f))
    as Hfetch1.
  { change (log_start "SnapchatDataFetcherAgent" st1)
      with (with_log (log_records (log_start "SnapchatDataFetcherAgent" st1)) st) at 1.
    rewrite log_blind_fetch_snapchat_data, Hfetch. reflexivity. }
  destruct (SnapchatDataFetcherAgent_run_returns user_id
              (log_start "SnapchatDataFetcherAgent" st1) _ user client_id api_key data
              Huser Hid Hid_ne Hkey Hkey_ne Hfetch1) as [st_b Hfetcher].
  pose proof (stage_logging_plugin_returned Fetch
                (snapchat_fetcher (OrchestratorAgent_init lib)) user_id st1 st_b _
                eq_refl Hfetcher) as Hstage1.
  (* Analysis *)
  set (artifact1 := {| artifact_name := "snapchat-data-" +:+ str_of_int user_id;
                       artifact_content := str_encode lib (json_dumps lib data);
                       artifact_mime_type := "application/json" |}) in *.
  set (st_b' := log_end (class_name (snapchat_fetcher (OrchestratorAgent_init lib))) st_b)
    in *.
  destruct (DataAnalysisAgent_run_returns artifact1 data
              (log_start "DataAnalysisAgent" st_b') Hjson)
    as (insight & st_c & Hanalyzer & Hin).
  pose proof (stage_logging_plugin_returned Analysis
                (data_analyzer (OrchestratorAgent_init lib)) artifact1 st_b' st_c _
                eq_refl Hanalyzer) as Hstage2.
  set (artifact2 := {| artifact_name := "insight-" +:+ artifact_name artifact1;
                       artifact_content := str_encode lib insight;
                       artifact_mime_type := "text/plain" |}) in *.
  set (st_c' := log_end (class_name (data_analyzer (OrchestratorAgent_init lib))) st_c)
    in *.
  pose proof (insights_pool_nonempty insight Hin) as Hne.
  (* Validation *)
  assert (forall st0 : Store,
            TestAgent_run (data, VStr insight) st0 = (Returned true, st0)) as Htest.
  { intros st0.
    destruct (fetch_snapchat_data_shape _ _ _ _ _ Hfetch) as [rest ->].
    rewrite TestAgent_run_dict. cbn.
    destruct (String.eqb_spec insight ""); [contradiction|reflexivity]. }
  pose proof (stage_logging_plugin_returned Validation
                (test_agent (OrchestratorAgent_init lib)) (data, VStr insight)
                st_c' _ true eq_refl (Htest _)) as Hstage3.
  pose proof (stage_logging_plugin_returned Safety
                (safety_agent (OrchestratorAgent_init lib)) (data, VStr insight)
                (log_end "TestAgent" (log_start "TestAgent" st_c')) _ true
                eq_refl eq_refl) as Hstage4.
  pose proof (stage_logging_plugin_returned Evaluation
                (evaluation_agent (OrchestratorAgent_init lib)) insight
                (log_end "SafetyAgent" (log_start "SafetyAgent"
                   (log_end "TestAgent" (log_start "TestAgent" st_c')))) _ true
                eq_refl eq_refl) as Hstage5.
  pose proof (stage_logging_plugin_returned Persistence
                (database_agent (OrchestratorAgent_init lib))
                (user_id, data, insight)
                (log_end "EvaluationAgent" (log_start "EvaluationAgent"
                   (log_end "SafetyAgent" (log_start "SafetyAgent"
                      (log_end "TestAgent" (log_start "TestAgent" st_c')))))) _ true
                eq_refl eq_refl) as Hstage6.
  (* The run *)
  assert (exists st2,
            OrchestratorAgent_run lib (OrchestratorAgent_init lib) user_id st1
            = (Returned {| snapchatData := data; insights := insight |}, st2,
               all_stages_returned)) as [st2 Hrun].
  { eexists. unfold OrchestratorAgent_run.
    rewrite (Traced_bind_returned _ _ _ _ _ _ Hstage1).
    rewrite (Traced_bind_returned _ _ _ _ _ _ Hstage2).
    unfold Traced.bind at 1, Traced.call at 1, parse_snapchat_artifact at 1.
    cbn [artifact_content artifact1]. rewrite Hjson. unfold Body.ret at 1.
    unfold Traced.bind at 1, Traced.call at 1, decode_content at 1.
    cbn [artifact_content artifact2]. rewrite (Htext insight Hin). unfold Body.ret at 1.
    rewrite (Traced_bind_returned _ _ _ _ _ _ Hstage3).
    rewrite (Traced_bind_returned _ _ _ _ _ _ Hstage4).
    rewrite (Traced_bind_returned _ _ _ _ _ _ Hstage5).
    rewrite (Traced_bind_returned _ _ _ _ _ _ Hstage6).
    unfold Traced.ret. reflexivity. }
  exists insight. eexists _, _, st1, st2.
  split; [|split; [exact Hin|split; [exact Hne|split; [reflexivity|exact Hrun]]]].
  rewrite execute_logging_plugin by reflexivity.
  cbn [OrchestratorAgent_agent run class_name]. unfold Traced.forget.
  fold st1. rewrite Hrun. reflexivity.
Qed.

End BuiltPipeline.

(** ** The pipeline on explicit inputs *)

Lemma run_stops_at_failure_witness :
  fst (fst (OrchestratorAgent_run Reference.lib reference_pipeline 999 test_store))
  = Raised (MissingCredentials 999) /\
  ~ In (StageCalled Persistence)
       (snd (OrchestratorAgent_run Reference.lib reference_pipeline 999 test_store)).
Proof.
  destruct (run_stops_at_failure Reference.lib reference_pipeline 999 test_store
              (fst (fst (OrchestratorAgent_run Reference.lib reference_pipeline 999 test_store)))
              (snd (fst (OrchestratorAgent_run Reference.lib reference_pipeline 999 test_store)))
              (snd (OrchestratorAgent_run Reference.lib reference_pipeline 999 test_store))
              Fetch (MissingCredentials 999)) as [Hout Hlater].
  - destruct (OrchestratorAgent_run Reference.lib reference_pipeline 999 test_store)
      as [[out st'] log]. reflexivity.
  - vm_compute. right. left. reflexivity.
  - split; [exact Hout|]. apply Hlater. unfold stage_after. cbn. lia.
Defined.

Lemma missing_credentials_fail_before_any_write_witness :
  credentials_missing test_store 999 /\
  exists st' trace st1 st2,
    execute (OrchestratorAgent_agent Reference.lib reference_pipeline) 999 test_store
      = (Raised (MissingCredentials 999), st', trace) /\
    artifacts st' = artifacts test_store /\
    storage st' = storage test_store /\
    _trigger_start (OrchestratorAgent_agent Reference.lib reference_pipeline) 999 test_store
      = (Returned tt, st1, [StartHook 0 999]) /\
    OrchestratorAgent_run Reference.lib reference_pipeline 999 st1
      = (Raised (MissingCredentials 999), st2,
         [StageCalled Fetch; StageRaised Fetch (MissingCredentials 999)]).
Proof.
  assert (credentials_missing test_store 999) as Hmissing by (vm_compute; exact I).
  split; [exact Hmissing|].
  exact (missing_credentials_fail_before_any_write Reference.lib 999 test_store Hmissing).
Defined.

Lemma full_run_returns_upstream_data_witness :
  exists insight st' trace st1 st2,
    execute (OrchestratorAgent_agent Reference.lib reference_pipeline) 1 test_store
      = (Returned {| snapchatData := test_upstream_data; insights := insight |},
         st', trace) /\
    In insight insights_pool /\
    insight <> "" /\
    _trigger_start (OrchestratorAgent_agent Reference.lib reference_pipeline) 1 test_store
      = (Returned tt, st1, [StartHook 0 1]) /\
    OrchestratorAgent_run Reference.lib reference_pipeline 1 st1
      = (Returned {| snapchatData := test_upstream_data; insights := insight |}, st2,
         all_stages_returned).
Proof.
  apply (full_run_returns_upstream_data Reference.lib 1 test_store
           (snd (fetch_snapchat_data Reference.lib "test_client_id" "test_api_key"
                   test_store))
           test_user "test_client_id" "test_api_key" test_upstream_data).
  - vm_compute. reflexivity.
  - reflexivity.
  - discriminate.
  - reflexivity.
  - discriminate.
  - unfold test_upstream_data.
    destruct (fetch_snapchat_data Reference.lib "test_client_id" "test_api_key" test_store)
      as [[data|error] st_f] eqn:Hfetch; [reflexivity|].
    vm_compute in Hfetch. discriminate Hfetch.
  - vm_compute. reflexivity.
  - intros text Hin. unfold insights_pool in Hin. cbn [In] in Hin.
    repeat (destruct Hin as [<- | Hin]; [vm_compute; reflexivity|]).
    contradiction.
Defined.



Lemma bundle_only_after_all_stages_witness :
  exists error' st' trace,
    execute (OrchestratorAgent_agent Reference.lib reference_pipeline) 999 test_store
    = (Raised error', st', trace).
Proof.
  pose (st1 := log_start "OrchestratorAgent" test_store).
  apply (proj2 (bundle_only_after_all_stages Reference.lib reference_pipeline 999 test_store)
           [StartHook 0 999] st1
           (fst (fst (OrchestratorAgent_run Reference.lib reference_pipeline 999 st1)))
           (snd (fst (OrchestratorAgent_run Reference.lib reference_pipeline 999 st1)))
           (snd (OrchestratorAgent_run Reference.lib reference_pipeline 999 st1))
           Fetch (MissingCredentials 999)).
  - reflexivity.
  - destruct (OrchestratorAgent_run Reference.lib reference_pipeline 999 st1)
      as [[out st2] log]. reflexivity.
  - vm_compute. right. left. reflexivity.
Defined.


(** * Further properties of the code *)

(** ** Hook dispatch *)

Section HookDispatch.
Context {St Arg Res : Type}.
Implicit Types (self : Agent St Arg Res) (p : Plugin St Arg Res).

(** Every event of a loop over the plugins is one of the loop's own. *)
Lemma for_each_plugin_events (hook : Plugin St Arg Res -> option (Body St unit))
    (ev : nat -> HookEvent Arg Res) (plugins : list (Plugin St Arg Res)) :
  forall i st o st' trace,
    for_each_plugin hook ev i plugins st = (o, st', trace) ->
    forall event, In event trace -> exists j, event = ev j.
Proof.
  induction plugins as [|p rest IH]; intros i st o st' trace; simpl.
  - unfold Traced.ret. intros [= _ _ <-] event [].
  - destruct (hook p) as [h|]; [|apply IH].
    unfold Traced.bind, Traced.emit, Traced.call.
    destruct (h st) as [[[]|e] st1].
    + destruct (for_each_plugin hook ev (S i) rest st1) as [[o2 st2] t2] eqn:Hrest.
      intros [= _ _ <-] event [<- | Hin]; [eauto|].
      eapply IH; eassumption.
    + intros [= _ _ <-] event [<- | []]. eauto.
Qed.

(** A plugin without the hook, attached last, does not change the loop. *)
Lemma for_each_plugin_app_none (hook : Plugin St Arg Res -> option (Body St unit))
    (ev : nat -> HookEvent Arg Res) (plugins : list (Plugin St Arg Res)) p :
  hook p = None ->
  forall i st,
    for_each_plugin hook ev i (plugins ++ [p]) st = for_each_plugin hook ev i plugins st.
Proof.
  intros Hnone. induction plugins as [|q rest IH]; intros i st; simpl.
  - rewrite Hnone. reflexivity.
  - destruct (hook q) as [h|]; [|apply IH].
    unfold Traced.bind, Traced.emit, Traced.call.
    destruct (h st) as [[[]|e] st1]; [|reflexivity].
    rewrite IH. reflexivity.
Qed.

(** X1: [execute] returns a value exactly when the start hooks, [run]
    and the end hooks all return; the value is [run]'s, the final state
    is the one the last end hook leaves, and the trace is the start
    hooks, the call of [run] and the end hooks. *)
Theorem execute_returns_iff self (args : Arg) (st st' : St) (result : Res)
    (trace : list (HookEvent Arg Res)) :
  execute self args st = (Returned result, st', trace) <->
  exists st1 t1 st2 t3,
    _trigger_start self args st = (Returned tt, st1, t1) /\
    run self args st1 = (Returned result, st2) /\
    _trigger_end self result st2 = (Returned tt, st', t3) /\
    trace = t1 ++ [RunCall args] ++ t3.
Proof.
  split.
  - unfold execute, Traced.try_except, Traced.bind, Traced.emit, Traced.call,
      Traced.ret, Traced.raise.
    destruct (_trigger_start self args st) as [[[[]|e0] st1] t1].
    + destruct (run self args st1) as [[r|e1] st2] eqn:Hrun; cbn.
      * destruct (_trigger_end self r st2) as [[[[]|e2] st3] t3] eqn:Hend; cbn.
        -- intros [= <- <- <-]. exists st1, t1, st2, t3.
           rewrite app_nil_r. repeat split; assumption.
        -- destruct (_trigger_error self e2 st3) as [[[[]|e3] st4] t4]; discriminate.
      * destruct (_trigger_error self e1 st2) as [[[[]|e3] st4] t4]; discriminate.
    + destruct (_trigger_error self e0 st1) as [[[[]|e3] st4] t4]; discriminate.
  - intros (st1 & t1 & st2 & t3 & Hstart & Hrun & Hend & ->).
    exact (execute_run_returned self args _ _ _ _ _ _ _ Hstart Hrun Hend).
Qed.

(** X2: when an [on_agent_start] hook raises, [run] is never called and
    no end hook fires; [execute] raises. *)
Theorem start_hook_failure_skips_run self (args : Arg) (st st1 : St) (error : exc)
    (t1 : list (HookEvent Arg Res)) :
  _trigger_start self args st = (Raised error, st1, t1) ->
  exists error' st' trace,
    execute self args st = (Raised error', st', trace) /\
    (forall args', ~ In (RunCall args') trace) /\
    (forall i result, ~ In (EndHook i result) trace).
Proof.
  intros Hstart.
  destruct (_trigger_error self error st1) as [[o st2] t2] eqn:Herror.
  pose proof (execute_start_raised self args _ _ _ _ _ _ _ Hstart Herror) as Hexec.
  assert (forall event, In event (t1 ++ t2) ->
            (exists j, event = StartHook j args) \/ (exists j, event = ErrorHook j error))
    as Hevents.
  { intros event Hin. apply in_app_iff in Hin as [Hin | Hin].
    - left. exact (for_each_plugin_events _ _ _ _ _ _ _ _ Hstart event Hin).
    - right. exact (for_each_plugin_events _ _ _ _ _ _ _ _ Herror event Hin). }
  exists (match o with Returned _ => error | Raised e' => e' end), st2, (t1 ++ t2).
  split; [|split].
  - rewrite Hexec. destruct o as [[]|e']; reflexivity.
  - intros args' Hin. destruct (Hevents _ Hin) as [[j Hj] | [j Hj]]; discriminate.
  - intros i result Hin. destruct (Hevents _ Hin) as [[j Hj] | [j Hj]]; discriminate.
Qed.

(** X3: attaching a plugin that has none of the three hooks changes
    nothing: [execute] gives the same outcome, state and trace. *)
Theorem hookless_plugin_is_inert self p (args : Arg) (st : St) :
  on_agent_start p = None -> on_agent_end p = None -> on_agent_error p = None ->
  execute (add_plugin self p) args st = execute self args st.
Proof.
  intros Hs He Hr.
  assert (forall x i s, for_each_plugin (start_hook (add_plugin self p) x)
                          (fun j => StartHook j x) i (_plugins self ++ [p]) s
                        = for_each_plugin (start_hook self x)
                            (fun j => StartHook j x) i (_plugins self) s) as Hstart.
  { intros x i s. apply for_each_plugin_app_none. unfold start_hook. rewrite Hs. reflexivity. }
  assert (forall r i s, for_each_plugin (end_hook (add_plugin self p) r)
                          (fun j => EndHook j r) i (_plugins self ++ [p]) s
                        = for_each_plugin (end_hook self r)
                            (fun j => EndHook j r) i (_plugins self) s) as Hend.
  { intros r i s. apply for_each_plugin_app_none. unfold end_hook. rewrite He. reflexivity. }
  assert (forall e i s, for_each_plugin (error_hook (add_plugin self p) e)
                          (fun j => ErrorHook j e) i (_plugins self ++ [p]) s
                        = for_each_plugin (error_hook self e)
                            (fun j => ErrorHook j e) i (_plugins self) s) as Herr.
  { intros e i s. apply for_each_plugin_app_none. unfold error_hook. rewrite Hr. reflexivity. }
  unfold execute, Traced.try_except, Traced.bind, Traced.emit, Traced.call,
    Traced.ret, Traced.raise, _trigger_start, _trigger_end, _trigger_error.
  cbn [add_plugin _plugins run]. rewrite Hstart.
  destruct (for_each_plugin (start_hook self args) (fun j => StartHook j args) 0
              (_plugins self) st) as [[[[]|e0] st1] t1].
  - destruct (run self args st1) as [[r|e1] st2]; cbn.
    + rewrite Hend.
      destruct (for_each_plugin (end_hook self r) (fun j => EndHook j r) 0
                  (_plugins self) st2) as [[[[]|e2] st3] t3]; cbn; [reflexivity|].
      rewrite Herr. reflexivity.
    + rewrite Herr. reflexivity.
  - rewrite Herr. reflexivity.
Qed.

End HookDispatch.

Lemma start_hook_failure_skips_run_witness :
  exists error' st' trace,
    execute (successor_agent [journal_plugin; brittle_start_plugin; journal_plugin]) 7 []
      = (Raised error', st', trace) /\
    (forall args', ~ In (RunCall args') trace) /\
    (forall i result, ~ In (EndHook i result) trace).
Proof.
  apply (start_hook_failure_skips_run
           (successor_agent [journal_plugin; brittle_start_plugin; journal_plugin]) 7 []
           ["start"] (Exc ValueError "start hook failed")
           [StartHook 0 7; StartHook 1 7]).
  reflexivity.
Defined.

Lemma hookless_plugin_is_inert_witness :
  execute (add_plugin (successor_agent [journal_plugin]) silent_plugin) 7 []
  = execute (successor_agent [journal_plugin]) 7 [].
Proof.
  apply (hookless_plugin_is_inert (successor_agent [journal_plugin]) silent_plugin 7 []);
    reflexivity.
Defined.

(** ** Storage writes *)

(** X4: a save for one user leaves every other user's data, all
    insights and the user directory as they were; likewise for a saved
    insight. *)
Theorem save_leaves_the_rest_untouched (self : StorageService) (user_id other : Z)
    (data : pyval) (insight : string) :
  other <> user_id ->
  (let self' := snd (save_snapchat_data user_id data self) in
   get_snapchat_data other self' = (Returned (_snapchat_data self !! other), self') /\
   _ai_insights self' = _ai_insights self /\
   _users self' = _users self) /\
  (let self' := snd (save_ai_insight user_id insight self) in
   get_ai_insight other self' = (Returned (_ai_insights self !! other), self') /\
   _snapchat_data self' = _snapchat_data self /\
   _users self' = _users self).
Proof.
  intros Hne. split; cbn; (split; [|split; reflexivity]).
  - unfold get_snapchat_data. cbn. rewrite lookup_insert_ne by congruence. reflexivity.
  - unfold get_ai_insight. cbn. rewrite lookup_insert_ne by congruence. reflexivity.
Qed.

(** X5: after any sequence of saves, a user's stored data is the data
    of the last save for that user, and what was stored before when the
    sequence has no save for that user. *)
Theorem save_all_last_write_wins (writes : list (Z * pyval)) :
  forall (self : StorageService) (user_id : Z),
    exists self',
      save_all writes self = (Returned tt, self') /\
      get_snapchat_data user_id self'
        = (Returned (match last_write user_id writes with
                     | Some data => Some data
                     | None => _snapchat_data self !! user_id
                     end), self').
Proof.
  induction writes as [|[u data] rest IH]; intros self user_id.
  - exists self. split; reflexivity.
  - cbn [save_all last_write]. unfold Body.bind at 1.
    cbn [save_snapchat_data].
    destruct (IH {| _users := _users self;
                    _snapchat_data := <[u := data]> (_snapchat_data self);
                    _ai_insights := _ai_insights self |} user_id)
      as (self' & Hsave & Hget).
    exists self'. split; [exact Hsave|].
    rewrite Hget. destruct (last_write user_id rest) as [later|]; [reflexivity|].
    cbn [_snapchat_data].
    destruct (Z.eqb_spec u user_id) as [->|Hne].
    + rewrite lookup_insert_eq. reflexivity.
    + rewrite lookup_insert_ne by exact Hne. reflexivity.
Qed.

Lemma save_leaves_the_rest_untouched_witness :
  get_snapchat_data 2 (snd (save_snapchat_data 1 (VInt 5) (storage test_store)))
  = (Returned None, snd (save_snapchat_data 1 (VInt 5) (storage test_store))).
Proof.
  destruct (save_leaves_the_rest_untouched (storage test_store) 1 2 (VInt 5) "x")
    as [(Hget & _ & _) _]; [discriminate|].
  exact Hget.
Defined.

(** ** The mock services *)

Section MockServices.
Context (lib : PythonLib).

Lemma sources_advanced_refl (st : Store) : sources_advanced 0 0 st st.
Proof.
  repeat split; intros n; rewrite Nat.add_0_r; reflexivity.
Qed.

Lemma sources_advanced_trans (d1 t1 d2 t2 : nat) (st1 st2 st3 : Store) :
  sources_advanced d1 t1 st1 st2 -> sources_advanced d2 t2 st2 st3 ->
  sources_advanced (d1 + d2) (t1 + t2) st1 st3.
Proof.
  intros (Hs1 & Ha1 & Hl1 & Hr1 & Hc1) (Hs2 & Ha2 & Hl2 & Hr2 & Hc2).
  repeat split; try congruence.
  - intros n. rewrite Hr2, Hr1. f_equal. lia.
  - intros n. rewrite Hc2, Hc1. f_equal. lia.
Qed.

Lemma random_randint_bounds (a b : Z) (st : Store) :
  a <= b ->
  exists r st',
    random_randint a b st = (Returned r, st') /\ a <= r <= b /\
    sources_advanced 1 0 st st'.
Proof.
  intros Hab. unfold random_randint, Body.bind, random_draw, Body.ret.
  eexists _, _. split; [reflexivity|]. split.
  - pose proof (Z.mod_pos_bound (Z.of_nat (random_tape st 0)) (b - a + 1)). lia.
  - repeat split; cbn; intros n.
    + f_equal. lia.
    + rewrite Nat.add_0_r. reflexivity.
Qed.

Lemma datetime_now_reads (st : Store) :
  exists st', datetime_now st = (Returned (clock_tape st 0%nat), st') /\
              sources_advanced 0 1 st st'.
Proof.
  unfold datetime_now. eexists. split; [reflexivity|].
  repeat split; cbn; intros n.
  - rewrite Nat.add_0_r. reflexivity.
  - f_equal. lia.
Qed.

(** The loop of [generate_followers_data], entry by entry. *)
Lemma followers_loop_entries (base_date : Z) (indices : list nat) :
  forall (data : list pyval) (st : Store),
    exists entries st',
      followers_loop lib base_date indices data st = (Returned (data ++ entries), st') /\
      length entries = length indices /\
      (forall k, (k < length indices)%nat ->
         exists followers,
           nth k entries VNone
           = follower_entry lib
               (base_date + timedelta_days (Z.of_nat (nth k indices 0%nat))) followers /\
           19950 + Z.of_nat (nth k indices 0%nat) * 150 <= followers
             <= 20050 + Z.of_nat (nth k indices 0%nat) * 150) /\
      sources_advanced (length indices) 0 st st'.
Proof.
  induction indices as [|i rest IH]; intros data st; cbn [followers_loop].
  - exists [], st. rewrite app_nil_r. split; [reflexivity|]. split; [reflexivity|].
    split; [intros k Hk; cbn in Hk; lia|]. apply sources_advanced_refl.
  - destruct (random_randint_bounds (-50) 50 st) as (noise & st1 & Hdraw & Hnoise & Hadv1);
      [lia|].
    unfold Body.bind at 1. rewrite Hdraw.
    destruct (IH (data ++ [follower_entry lib
                             (base_date + timedelta_days (Z.of_nat i))
                             (20000 + Z.of_nat i * 150 + noise)]) st1)
      as (entries & st' & Hloop & Hlen & Hentries & Hadv).
    eexists (_ :: entries), st'. split; [|split; [|split]].
    + unfold follower_entry in Hloop. rewrite Hloop, <- app_assoc. reflexivity.
    + cbn. rewrite Hlen. reflexivity.
    + intros [|k] Hk.
      * cbn. eexists. split; [reflexivity|]. lia.
      * cbn. apply Hentries. cbn in Hk. lia.
    + exact (sources_advanced_trans 1 0 _ 0 _ _ _ Hadv1 Hadv).
Qed.

(** X6: [generate_followers_data] returns 31 entries, one per day from
    thirty days before the clock reading up to that day; the follower
    count of entry [k] lies within 50 of [20000 + 150 k].  It takes one
    clock reading and 31 draws and touches nothing else. *)
Theorem generate_followers_data_series (st : Store) :
  exists entries st',
    generate_followers_data lib st = (Returned entries, st') /\
    length entries = 31%nat /\
    (forall k, (k < 31)%nat ->
       exists followers,
         nth k entries VNone
         = follower_entry lib
             (clock_tape st 0%nat - timedelta_days 30 + timedelta_days (Z.of_nat k))
             followers /\
         19950 + Z.of_nat k * 150 <= followers <= 20050 + Z.of_nat k * 150) /\
    sources_advanced 31 1 st st'.
Proof.
  unfold generate_followers_data.
  destruct (datetime_now_reads st) as (st1 & Hnow & Hadv1).
  unfold Body.bind. rewrite Hnow.
  destruct (followers_loop_entries (clock_tape st 0%nat - timedelta_days 30)
              (seq 0 31) [] st1) as (entries & st' & Hloop & Hlen & Hentries & Hadv).
  exists entries, st'. split; [exact Hloop|]. split; [exact Hlen|]. split.
  - intros k Hk. destruct (Hentries k) as (followers & Hnth & Hbounds);
      [rewrite length_seq; exact Hk|].
    rewrite seq_nth in Hnth, Hbounds by exact Hk. cbn [Nat.add] in Hnth, Hbounds.
    exists followers. split; assumption.
  - rewrite length_seq in Hadv.
    exact (sources_advanced_trans 0 1 31 0 _ _ _ Hadv1 Hadv).
Qed.

Lemma generate_followers_data_series_aux (st : Store) :
  exists entries st',
    generate_followers_data lib st = (Returned entries, st') /\
    length entries = 31%nat /\
    sources_advanced 31 1 st st'.
Proof.
  unfold generate_followers_data.
  destruct (datetime_now_reads st) as (st1 & Hnow & Hadv1).
  unfold Body.bind. rewrite Hnow.
  destruct (followers_loop_entries (clock_tape st 0%nat - timedelta_days 30)
              (seq 0 31) [] st1) as (entries & st' & Hloop & Hlen & _ & Hadv).
  exists entries, st'. split; [exact Hloop|]. rewrite length_seq in Hlen, Hadv.
  split; [exact Hlen|].
  exact (sources_advanced_trans 0 1 31 0 _ _ _ Hadv1 Hadv).
Qed.

(** What the upstream fetch does for credentials that are both set. *)
Lemma fetch_snapchat_data_effects (client_id api_key : string) (st : Store) :
  client_id <> "" -> api_key <> "" ->
  exists entries followers st',
    fetch_snapchat_data lib client_id api_key st = (Returned (VDict entries), st') /\
    dict_lookup "totalFollowers" entries = Some (VInt 24583) /\
    dict_lookup "lastUpdated" entries = Some (VStr (isoformat lib (clock_tape st 0%nat))) /\
    dict_lookup "followers" entries = Some (VList followers) /\
    length followers = 31%nat /\
    sources_advanced 31 2 st st'.
Proof.
  intros Hid Hkey. unfold fetch_snapchat_data. cbn [truthy].
  destruct (String.eqb_spec client_id ""); [contradiction|].
  destruct (String.eqb_spec api_key ""); [contradiction|].
  cbn [negb orb].
  destruct (datetime_now_reads st) as (st1 & Hnow & Hadv1).
  destruct (generate_followers_data_series_aux st1) as (followers & st' & Hgen & Hlen & Hadv).
  unfold Body.bind at 1. rewrite Hnow. unfold Body.bind at 1. rewrite Hgen.
  eexists _, followers, st'.
  split; [reflexivity|]. split; [reflexivity|]. split; [reflexivity|].
  split; [reflexivity|]. split; [exact Hlen|].
  exact (sources_advanced_trans 0 1 31 1 _ _ _ Hadv1 Hadv).
Qed.

(** X7: the upstream fetch raises "Invalid Snapchat API credentials"
    when either credential is empty, before reading any source; with
    both set it returns a dict with the follower count 24583, the
    clock's first reading as [lastUpdated] and a 31-entry follower
    series, after two clock readings and 31 draws and nothing else. *)
Theorem fetch_snapchat_data_checks_credentials (client_id api_key : string) (st : Store) :
  (client_id = "" \/ api_key = "" ->
     fetch_snapchat_data lib client_id api_key st
     = (Raised (Exc ValueError "Invalid Snapchat API credentials"), st)) /\
  (client_id <> "" -> api_key <> "" ->
     exists entries followers st',
       fetch_snapchat_data lib client_id api_key st = (Returned (VDict entries), st') /\
       dict_lookup "totalFollowers" entries = Some (VInt 24583) /\
       dict_lookup "lastUpdated" entries
         = Some (VStr (isoformat lib (clock_tape st 0%nat))) /\
       dict_lookup "followers" entries = Some (VList followers) /\
       length followers = 31%nat /\
       sources_advanced 31 2 st st').
Proof.
  split; [|apply fetch_snapchat_data_effects].
  unfold fetch_snapchat_data. cbn [truthy].
  intros [-> | ->]; [reflexivity|].
  destruct (String.eqb client_id ""); reflexivity.
Qed.

(** X8: the insight service returns one of its eight texts, never an
    empty one, whatever data it is given (the data does not influence
    the choice); it takes one draw and touches nothing else. *)
Theorem generate_ai_insight_ignores_data (data data' : pyval) (st : Store) :
  exists insight st',
    generate_ai_insight data st = (Returned insight, st') /\
    generate_ai_insight data' st = (Returned insight, st') /\
    In insight insights_pool /\
    insight <> "" /\
    sources_advanced 1 0 st st'.
Proof.
  unfold generate_ai_insight, random_choice, Body.bind, random_draw, Body.ret.
  eexists _, _. split; [reflexivity|]. split; [reflexivity|].
  assert (In (nth (random_tape st 0 mod length insights_pool) insights_pool "")
             insights_pool) as Hin.
  { apply nth_In. apply Nat.mod_upper_bound. discriminate. }
  split; [exact Hin|]. split; [exact (insights_pool_nonempty _ Hin)|].
  repeat split; cbn; intros n.
  - f_equal. lia.
  - rewrite Nat.add_0_r. reflexivity.
Qed.

Lemma generate_ai_insight_ignores_data_aux (data : pyval) (st : Store) :
  exists insight st',
    generate_ai_insight data st = (Returned insight, st') /\
    In insight insights_pool /\
    sources_advanced 1 0 st st'.
Proof.
  unfold generate_ai_insight, random_choice, Body.bind, random_draw, Body.ret.
  eexists _, _. split; [reflexivity|]. split.
  - apply nth_In. apply Nat.mod_upper_bound. discriminate.
  - repeat split; cbn; intros n.
    + f_equal. lia.
    + rewrite Nat.add_0_r. reflexivity.
Qed.

End MockServices.

(** ** The stage agents *)

Section StageAgents.
Context (lib : PythonLib).

Lemma opt_str_truthy_set (field : option string) :
  opt_str_truthy field = true -> exists s, field = Some s /\ s <> "".
Proof.
  destruct field as [s|]; [|discriminate]. cbn.
  destruct (String.eqb_spec s ""); [discriminate|]. eauto.
Qed.

Lemma opt_str_truthy_unset (field : option string) :
  opt_str_truthy field = false -> credential_unset field.
Proof.
  destruct field as [s|]; [|left; reflexivity]. cbn.
  destruct (String.eqb_spec s "") as [->|]; [right; reflexivity|discriminate].
Qed.

Lemma credentials_missing_cases (st : Store) (user_id : Z) :
  credentials_missing st user_id \/
  exists user,
    _users (storage st) !! user_id = Some user /\
    opt_str_truthy (snapchat_client_id user) = true /\
    opt_str_truthy (snapchat_api_key user) = true.
Proof.
  unfold credentials_missing.
  destruct (_users (storage st) !! user_id) as [user|]; [|left; exact I].
  destruct (opt_str_truthy (snapchat_client_id user)) eqn:Hid.
  - destruct (opt_str_truthy (snapchat_api_key user)) eqn:Hkey.
    + right. eauto.
    + left. right. apply opt_str_truthy_unset. exact Hkey.
  - left. left. apply opt_str_truthy_unset. exact Hid.
Qed.

Lemma credentials_set_not_missing (st : Store) (user_id : Z) (user : User) :
  _users (storage st) !! user_id = Some user ->
  opt_str_truthy (snapchat_client_id user) = true ->
  opt_str_truthy (snapchat_api_key user) = true ->
  ~ credentials_missing st user_id.
Proof.
  intros Huser Hid Hkey. unfold credentials_missing. rewrite Huser.
  intros [Hunset | Hunset]; apply credential_unset_falsy in Hunset; congruence.
Qed.

(** The fetch agent for a subject with both credentials, step by step. *)
Lemma fetcher_run_effects (user_id : Z) (st : Store) (user : User) :
  _users (storage st) !! user_id = Some user ->
  opt_str_truthy (snapchat_client_id user) = true ->
  opt_str_truthy (snapchat_api_key user) = true ->
  exists data st_f,
    fetch_snapchat_data lib (str_value (snapchat_client_id user))
      (str_value (snapchat_api_key user)) st = (Returned data, st_f) /\
    sources_advanced 31 2 st st_f /\
    SnapchatDataFetcherAgent_run lib user_id st
    = (Returned (data_artifact lib user_id data),
       with_artifact (data_artifact lib user_id data) st_f).
Proof.
  intros Huser Hid Hkey.
  destruct (opt_str_truthy_set _ Hid) as (client_id & Hcid & Hcid_ne).
  destruct (opt_str_truthy_set _ Hkey) as (api_key & Hckey & Hckey_ne).
  destruct (fetch_snapchat_data_effects lib client_id api_key st Hcid_ne Hckey_ne)
    as (entries & followers & st_f & Hfetch & _ & _ & _ & _ & Hadv).
  exists (VDict entries), st_f.
  rewrite Hcid, Hckey. cbn [str_value]. split; [exact Hfetch|]. split; [exact Hadv|].
  unfold SnapchatDataFetcherAgent_run.
  unfold Body.bind at 1. unfold on_storage, get_user. rewrite Huser.
  rewrite Hid, Hkey. cbn [negb orb]. rewrite Hcid, Hckey. cbn [str_value].
  unfold Body.bind at 1.
  change {| storage := storage st; artifacts := artifacts st;
            log_records := log_records st; random_tape := random_tape st;
            clock_tape := clock_tape st |} with (with_log (log_records st) st).
  rewrite (log_blind_fetch_snapchat_data lib), Hfetch.
  unfold Body.bind, artifact_service_create, Body.ret, with_artifact, with_log,
    data_artifact. cbn.
  destruct Hadv as (_ & _ & Hlog & _). rewrite Hlog. reflexivity.
Qed.

(** X9: the fetch agent has two outcomes only.  Without usable
    credentials it raises the missing-credentials error and leaves the
    state as it was; otherwise it returns the artifact named after the
    subject, holding the encoded JSON of what the upstream fetch
    returned, adds that one artifact to the store and leaves storage
    and log alone.  The upstream "Invalid Snapchat API credentials"
    error never comes out of the agent. *)
Theorem SnapchatDataFetcherAgent_run_outcomes (user_id : Z) (st : Store) :
  (credentials_missing st user_id /\
   SnapchatDataFetcherAgent_run lib user_id st = (Raised (MissingCredentials user_id), st)) \/
  (~ credentials_missing st user_id /\
   exists user data st_f st',
     _users (storage st) !! user_id = Some user /\
     fetch_snapchat_data lib (str_value (snapchat_client_id user))
       (str_value (snapchat_api_key user)) st = (Returned data, st_f) /\
     SnapchatDataFetcherAgent_run lib user_id st
       = (Returned (data_artifact lib user_id data), st') /\
     artifacts st' = artifacts st ++ [data_artifact lib user_id data] /\
     storage st' = storage st /\
     log_records st' = log_records st).
Proof.
  destruct (credentials_missing_cases st user_id) as [Hmissing | (user & Huser & Hid & Hkey)].
  - left. split; [exact Hmissing|].
    apply SnapchatDataFetcherAgent_run_missing. exact Hmissing.
  - right. split; [exact (credentials_set_not_missing _ _ _ Huser Hid Hkey)|].
    destruct (fetcher_run_effects user_id st user Huser Hid Hkey)
      as (data & st_f & Hfetch & (Hsto & Harts & Hlog & _) & Hrun).
    exists user, data, st_f, (with_artifact (data_artifact lib user_id data) st_f).
    split; [exact Huser|]. split; [exact Hfetch|]. split; [exact Hrun|].
    cbn. rewrite Harts, Hsto, Hlog. repeat split.
Qed.

Lemma fetcher_run_returned_name (user_id : Z) (st st' : Store) (artifact : Artifact) :
  SnapchatDataFetcherAgent_run lib user_id st = (Returned artifact, st') ->
  artifact_name artifact = "snapchat-data-" +:+ str_of_int user_id.
Proof.
  intros Hrun.
  destruct (credentials_missing_cases st user_id) as [Hmissing | (user & Huser & Hid & Hkey)].
  - rewrite (SnapchatDataFetcherAgent_run_missing lib _ _ Hmissing) in Hrun. discriminate.
  - destruct (fetcher_run_effects user_id st user Huser Hid Hkey)
      as (data & st_f & _ & _ & Hrun').
    rewrite Hrun' in Hrun. injection Hrun as <- _. reflexivity.
Qed.

Lemma append_cancel_l (prefix a b : string) : prefix +:+ a = prefix +:+ b -> a = b.
Proof.
  induction prefix as [|c prefix IH]; cbn; [tauto|].
  intros [= H]. exact (IH H).
Qed.

(** X10: artifacts fetched for different subjects have different
    names, in whatever states the two runs take place. *)
Theorem data_artifact_names_differ (user1 user2 : Z) (st1 st1' st2 st2' : Store)
    (artifact1 artifact2 : Artifact) :
  SnapchatDataFetcherAgent_run lib user1 st1 = (Returned artifact1, st1') ->
  SnapchatDataFetcherAgent_run lib user2 st2 = (Returned artifact2, st2') ->
  user1 <> user2 ->
  artifact_name artifact1 <> artifact_name artifact2.
Proof.
  intros Hrun1 Hrun2 Hne Hnames.
  rewrite (fetcher_run_returned_name _ _ _ _ Hrun1),
          (fetcher_run_returned_name _ _ _ _ Hrun2) in Hnames.
  apply append_cancel_l in Hnames. unfold str_of_int in Hnames.
  apply (inj pretty) in Hnames. contradiction.
Qed.

(** The analysis agent on an artifact that decodes, step by step. *)
Lemma analyzer_run_effects (artifact : Artifact) (data : pyval) (st : Store) :
  loads_content lib (artifact_content artifact) = Returned data ->
  exists insight st_g,
    generate_ai_insight data st = (Returned insight, st_g) /\
    In insight insights_pool /\
    sources_advanced 1 0 st st_g /\
    DataAnalysisAgent_run lib artifact st
    = (Returned (insight_artifact lib (artifact_name artifact) insight),
       with_artifact (insight_artifact lib (artifact_name artifact) insight) st_g).
Proof.
  intros Hloads.
  destruct (generate_ai_insight_ignores_data_aux data st)
    as (insight & st_g & Hgen & Hin & Hadv).
  exists insight, st_g. split; [exact Hgen|]. split; [exact Hin|]. split; [exact Hadv|].
  unfold DataAnalysisAgent_run. unfold Body.bind at 1.
  unfold parse_snapchat_artifact. rewrite Hloads. unfold Body.ret at 1.
  unfold Body.bind at 1. rewrite Hgen. reflexivity.
Qed.

(** X11: when the analysis agent returns, the artifact it was given
    decodes as JSON, the result is named "insight-" plus that
    artifact's name, is plain text and holds the encoding of one of the
    service's texts; exactly that artifact is added to the store, and
    storage and log are untouched. *)
Theorem DataAnalysisAgent_run_returned (artifact result : Artifact) (st st' : Store) :
  DataAnalysisAgent_run lib artifact st = (Returned result, st') ->
  exists data insight,
    loads_content lib (artifact_content artifact) = Returned data /\
    In insight insights_pool /\
    result = insight_artifact lib (artifact_name artifact) insight /\
    artifacts st' = artifacts st ++ [result] /\
    storage st' = storage st /\
    log_records st' = log_records st.
Proof.
  intros Hrun.
  destruct (loads_content lib (artifact_content artifact)) as [data|error] eqn:Hloads.
  - destruct (analyzer_run_effects artifact data st Hloads)
      as (insight & st_g & _ & Hin & (Hsto & Harts & Hlog & _) & Hrun').
    rewrite Hrun' in Hrun. injection Hrun as <- <-.
    exists data, insight. split; [reflexivity|]. split; [exact Hin|].
    split; [reflexivity|]. cbn. rewrite Harts, Hsto, Hlog. repeat split.
  - unfold DataAnalysisAgent_run, Body.bind, parse_snapchat_artifact in Hrun.
    rewrite Hloads in Hrun.
    destruct (is_decode_error (exc_type error)); discriminate Hrun.
Qed.

(** X12: an exception from the decoder that is neither a
    [JSONDecodeError] nor a [UnicodeDecodeError] is not turned into the
    malformed-artifact error: the analysis agent raises it unchanged,
    and creates nothing. *)
Theorem DataAnalysisAgent_run_other_error (artifact : Artifact) (error : exc) (st : Store) :
  loads_content lib (artifact_content artifact) = Raised error ->
  is_decode_error (exc_type error) = false ->
  DataAnalysisAgent_run lib artifact st = (Raised error, st).
Proof.
  intros Hloads Hclass.
  unfold DataAnalysisAgent_run, Body.bind, parse_snapchat_artifact.
  rewrite Hloads, Hclass. reflexivity.
Qed.

(** X13: the database agent never raises; afterwards both getters
    return what it was given for that user, every other user's entries,
    the directory, the artifacts and the log are as before. *)
Theorem DatabaseAgent_run_persists (user_id : Z) (data : pyval) (insight : string)
    (st : Store) :
  exists st',
    DatabaseAgent_run (user_id, data, insight) st = (Returned true, st') /\
    get_snapchat_data user_id (storage st') = (Returned (Some data), storage st') /\
    get_ai_insight user_id (storage st') = (Returned (Some insight), storage st') /\
    (forall other, other <> user_id ->
       _snapchat_data (storage st') !! other = _snapchat_data (storage st) !! other /\
       _ai_insights (storage st') !! other = _ai_insights (storage st) !! other) /\
    _users (storage st') = _users (storage st) /\
    artifacts st' = artifacts st /\
    log_records st' = log_records st.
Proof.
  eexists. split; [reflexivity|].
  unfold get_snapchat_data, get_ai_insight. cbn.
  rewrite !lookup_insert_eq. split; [reflexivity|]. split; [reflexivity|].
  split; [|repeat split].
  intros other Hne. rewrite !lookup_insert_ne by congruence. split; reflexivity.
Qed.

End StageAgents.

Lemma data_artifact_names_differ_witness :
  exists artifact1 artifact2 st1 st2,
    SnapchatDataFetcherAgent_run Reference.lib 1 two_user_store = (Returned artifact1, st1) /\
    SnapchatDataFetcherAgent_run Reference.lib 2 two_user_store = (Returned artifact2, st2) /\
    artifact_name artifact1 <> artifact_name artifact2.
Proof.
  destruct (SnapchatDataFetcherAgent_run Reference.lib 1 two_user_store)
    as [[artifact1|error] st1] eqn:Hrun1;
    [|vm_compute in Hrun1; discriminate Hrun1].
  destruct (SnapchatDataFetcherAgent_run Reference.lib 2 two_user_store)
    as [[artifact2|error] st2] eqn:Hrun2;
    [|vm_compute in Hrun2; discriminate Hrun2].
  exists artifact1, artifact2, st1, st2. split; [reflexivity|]. split; [reflexivity|].
  apply (data_artifact_names_differ Reference.lib 1 2 two_user_store st1 two_user_store st2
           artifact1 artifact2 Hrun1 Hrun2).
  discriminate.
Defined.

Lemma DataAnalysisAgent_run_returned_witness :
  exists result st' data insight,
    DataAnalysisAgent_run Reference.lib small_artifact test_store = (Returned result, st') /\
    loads_content Reference.lib (artifact_content small_artifact) = Returned data /\
    In insight insights_pool /\
    result = insight_artifact Reference.lib (artifact_name small_artifact) insight /\
    artifacts st' = artifacts test_store ++ [result] /\
    storage st' = storage test_store /\
    log_records st' = log_records test_store.
Proof.
  destruct (DataAnalysisAgent_run Reference.lib small_artifact test_store)
    as [[result|error] st'] eqn:Hrun;
    [|vm_compute in Hrun; discriminate Hrun].
  destruct (DataAnalysisAgent_run_returned Reference.lib small_artifact result
              test_store st' Hrun) as (data & insight & H).
  exists result, st', data, insight. split; [reflexivity|exact H].
Defined.

Lemma DataAnalysisAgent_run_other_error_witness :
  DataAnalysisAgent_run overflowing_lib malformed_artifact test_store
  = (Raised (Exc Exception_ "maximum recursion depth exceeded"), test_store).
Proof.
  apply (DataAnalysisAgent_run_other_error overflowing_lib malformed_artifact
           (Exc Exception_ "maximum recursion depth exceeded") test_store);
    reflexivity.
Defined.

(** ** The validation agent, completely *)

Section ValidationTable.
Context {St : Type}.

(** X14: the validation agent returns [True] exactly for a dict whose
    follower count is truthy together with a non-empty string; it
    returns nothing else, and it never changes the state. *)
Theorem TestAgent_run_returns_iff (data insights : pyval) (st : St) :
  (TestAgent_run (data, insights) st = (Returned true, st) <->
   exists entries v text,
     data = VDict entries /\
     dict_lookup "totalFollowers" entries = Some v /\
     truthy v = true /\
     insights = VStr text /\ text <> "") /\
  (forall o st', TestAgent_run (data, insights) st = (o, st') ->
     st' = st /\ o <> Returned false).
Proof.
  split; [split|].
  - intros Hrun. destruct data as [| b | n | q | s | items | entries];
      try (cbn in Hrun; discriminate Hrun).
    + destruct b; cbn in Hrun; discriminate Hrun.
    + cbn in Hrun. destruct (n =? 0); cbn in Hrun; discriminate Hrun.
    + cbn in Hrun. destruct (Qnum q =? 0); cbn in Hrun; discriminate Hrun.
    + cbn in Hrun. destruct (String.eqb s ""); cbn in Hrun; discriminate Hrun.
    + destruct items; cbn in Hrun; discriminate Hrun.
    + rewrite TestAgent_run_dict in Hrun.
      destruct (dict_lookup "totalFollowers" entries) as [v|] eqn:Hv; [|discriminate Hrun].
      destruct (truthy v) eqn:Htruthy; [|discriminate Hrun].
      destruct insights as [| b | n | q | text | items | es];
        try (rewrite andb_false_r in Hrun; discriminate Hrun);
        try (cbn in Hrun; discriminate Hrun).
      exists entries, v, text.
      split; [reflexivity|]. split; [exact Hv|]. split; [exact Htruthy|].
      split; [reflexivity|].
      intros ->. cbn in Hrun. discriminate Hrun.
  - intros (entries & v & text & -> & Hv & Htruthy & -> & Htext).
    rewrite TestAgent_run_dict, Hv, Htruthy. cbn.
    destruct (String.eqb_spec text ""); [contradiction|reflexivity].
  - intros o st'. unfold TestAgent_run, Body.raise, Body.ret.
    destruct (negb (truthy data)); [intros [= <- <-]; split; [reflexivity|discriminate]|].
    destruct (py_get data "totalFollowers") as [v|e];
      [|intros [= <- <-]; split; [reflexivity|discriminate]].
    destruct (negb (truthy v)); [intros [= <- <-]; split; [reflexivity|discriminate]|].
    destruct (negb (truthy insights) || negb (is_str insights));
      intros [= <- <-]; split; try reflexivity; discriminate.
Qed.

(** X15: a raw value that is truthy but not a dict (a list, a number,
    a string, [True]) does not get the invalid-data error: the call of
    [.get] on it raises [AttributeError]. *)
Theorem TestAgent_run_non_dict (data insights : pyval) (st : St) :
  truthy data = true ->
  (forall entries, data <> VDict entries) ->
  TestAgent_run (data, insights) st
  = (Raised (Exc AttributeError
               ("'" +:+ type_name data +:+ "' object has no attribute 'get'")), st).
Proof.
  intros Htruthy Hnot_dict. unfold TestAgent_run. rewrite Htruthy. cbn [negb].
  destruct data; try reflexivity.
  exfalso. eapply Hnot_dict. reflexivity.
Qed.

End ValidationTable.

Lemma TestAgent_run_non_dict_witness :
  TestAgent_run (VList [VInt 1], VStr "ok") tt
  = (Raised (Exc AttributeError "'list' object has no attribute 'get'"), tt).
Proof.
  apply (TestAgent_run_non_dict (VList [VInt 1]) (VStr "ok") tt).
  - reflexivity.
  - discriminate.
Defined.

(** ** The logging plugin *)

(** X16: for an agent whose one plugin is the logging plugin and whose
    [run] does not touch the log, [execute] has [run]'s outcome and
    [run]'s effect on the state, plus exactly two log records: "Agent
    started", then "Agent ended" or, when [run] raises, "Agent error"
    with the error's message and class name. *)
Theorem logging_plugin_is_transparent {Arg Res : Type} (self : Agent Store Arg Res)
    (args : Arg) (st : Store) :
  _plugins self = [LoggingPlugin] ->
  log_blind (run self args) ->
  execute self args st =
    match run self args st with
    | (Returned result, st') =>
        (Returned result,
         with_log (log_records st ++ [start_record (class_name self);
                                      end_record (class_name self)]) st',
         [StartHook 0 args; RunCall args; EndHook 0 result])
    | (Raised error, st') =>
        (Raised error,
         with_log (log_records st ++ [start_record (class_name self);
                                      error_record (class_name self) error]) st',
         [StartHook 0 args; RunCall args; ErrorHook 0 error])
    end.
Proof.
  intros Hplugins Hblind.
  rewrite execute_logging_plugin by exact Hplugins.
  change (log_start (class_name self) st)
    with (with_log (log_records st ++ [start_record (class_name self)]) st).
  rewrite Hblind.
  destruct (run self args st) as [[result|error] st'];
    unfold log_end, log_error, logged, with_log; cbn; rewrite <- app_assoc; reflexivity.
Qed.

Lemma logging_plugin_is_transparent_witness :
  execute (test_agent reference_pipeline)
    (VDict [("totalFollowers", VInt 0)], VStr "ok") test_store
  = (Raised InvalidData,
     with_log [start_record "TestAgent"; error_record "TestAgent" InvalidData] test_store,
     [StartHook 0 (VDict [("totalFollowers", VInt 0)], VStr "ok");
      RunCall (VDict [("totalFollowers", VInt 0)], VStr "ok");
      ErrorHook 0 InvalidData]).
Proof.
  apply (logging_plugin_is_transparent (test_agent reference_pipeline)
           (VDict [("totalFollowers", VInt 0)], VStr "ok") test_store).
  - reflexivity.
  - intros records st. reflexivity.
Defined.

(** ** Decoding between Analysis and Validation *)

Section DecodingStep.
Context (lib : PythonLib).

(** The analysis agent raises on every artifact that does not decode. *)
Lemma DataAnalysisAgent_run_undecodable (artifact : Artifact) (error : exc) (st : Store) :
  loads_content lib (artifact_content artifact) = Raised error ->
  exists error', DataAnalysisAgent_run lib artifact st = (Raised error', st).
Proof.
  intros Hloads. unfold DataAnalysisAgent_run, Body.bind, parse_snapchat_artifact.
  rewrite Hloads. destruct (is_decode_error (exc_type error)); eexists; reflexivity.
Qed.

(** X17: in the pipeline as [__init__] builds it, the orchestrator's
    own parse of the data artifact cannot fail, so the [except] clause
    around it is never taken: the analysis agent has decoded the very
    same content before.  Once Analysis has returned, either Validation
    is called, or decoding the insight artifact, the encoding of one of
    the service's texts, raised; that exception is then the outcome of
    the run, which ends there. *)
Theorem built_run_parse_cannot_fail (user_id : Z) (st st' : Store)
    (out : Outcome Bundle) (log : list StageEvent) :
  OrchestratorAgent_run lib (OrchestratorAgent_init lib) user_id st = (out, st', log) ->
  In (StageReturned Analysis) log ->
  In (StageCalled Validation) log \/
  exists insight error,
    In insight insights_pool /\
    bytes_decode lib (str_encode lib insight) = Raised error /\
    out = Raised error /\
    log = stages_before Validation.
Proof.
  unfold OrchestratorAgent_run. unfold Traced.bind at 1. unfold stage at 1.
  destruct (execute (snapchat_fetcher (OrchestratorAgent_init lib)) user_id st)
    as [[[a1|e1] s1] t1] eqn:Hfetch.
  2: { intros [= <- <- <-] Hin. cbn in Hin.
       destruct Hin as [Hin|[Hin|[]]]; discriminate Hin. }
  unfold Traced.bind at 1. unfold stage at 1.
  destruct (execute (data_analyzer (OrchestratorAgent_init lib)) a1 s1)
    as [[[a2|e2] s2] t2] eqn:Hanalysis.
  2: { intros [= <- <- <-] Hin. cbn in Hin.
       destruct Hin as [Hin|[Hin|[Hin|[Hin|[]]]]]; discriminate Hin. }
  rewrite execute_logging_plugin in Hanalysis by reflexivity.
  cbn [data_analyzer OrchestratorAgent_init add_plugin new_agent run class_name]
    in Hanalysis.
  destruct (loads_content lib (artifact_content a1)) as [data|error] eqn:Hloads.
  2: { destruct (DataAnalysisAgent_run_undecodable a1 error
                   (log_start "DataAnalysisAgent" s1) Hloads) as [error' Hrun].
       rewrite Hrun in Hanalysis. discriminate Hanalysis. }
  destruct (analyzer_run_effects lib a1 data (log_start "DataAnalysisAgent" s1) Hloads)
    as (insight & st_g & _ & Hin & _ & Hrun).
  rewrite Hrun in Hanalysis. injection Hanalysis as <- <- <-.
  unfold Traced.bind at 1. unfold Traced.call at 1.
  unfold parse_snapchat_artifact at 1. rewrite Hloads. unfold Body.ret at 1.
  unfold Traced.bind at 1. unfold Traced.call at 1. unfold decode_content at 1.
  cbn [artifact_content insight_artifact].
  destruct (bytes_decode lib (str_encode lib insight)) as [text|error] eqn:Hdec.
  - unfold Body.ret at 1. unfold Traced.bind at 1. unfold stage at 1.
    match goal with
    | |- context [execute ?a ?x ?s] => destruct (execute a x s) as [[[b|e] s3] t3]
    end.
    + match goal with
      | |- context [Traced.bind ?m ?k s3] => destruct (Traced.bind m k s3) as [[o4 s4] t4]
      end.
      intros [= <- <- <-] _. left. cbn. tauto.
    + intros [= <- <- <-] _. left. cbn. tauto.
  - unfold Body.raise. intros [= <- <- <-] _. right.
    exists insight, error. repeat split; assumption.
Qed.

End DecodingStep.

Lemma built_run_parse_cannot_fail_witness :
  exists out st' log,
    OrchestratorAgent_run Reference.lib reference_pipeline 1 test_store = (out, st', log) /\
    In (StageReturned Analysis) log /\
    (In (StageCalled Validation) log \/
     exists insight error,
       In insight insights_pool /\
       bytes_decode Reference.lib (str_encode Reference.lib insight) = Raised error /\
       out = Raised error /\
       log = stages_before Validation).
Proof.
  destruct (OrchestratorAgent_run Reference.lib reference_pipeline 1 test_store)
    as [[out st'] log] eqn:Hrun.
  assert (snd (OrchestratorAgent_run Reference.lib reference_pipeline 1 test_store)
          = all_stages_returned) as Hlog by (vm_compute; reflexivity).
  rewrite Hrun in Hlog. cbn [snd] in Hlog.
  assert (In (StageReturned Analysis) log) as Hin by (rewrite Hlog; cbn; tauto).
  exists out, st', log. split; [reflexivity|]. split; [exact Hin|].
  exact (built_run_parse_cannot_fail Reference.lib 1 test_store st' out log Hrun Hin).
Defined.

(** ** The HTTP handler *)

Section Handler.
Context {St : Type} (orchestrator_run : pyval -> Body St pyval).

(** X18: for a JSON object as request body the handler never raises.
    A [userId] that is missing or falsy (0, empty, null) gives status
    400 without running the workflow; otherwise the workflow runs once
    and the response is its result with status 200, or status 500 with
    the exception's message. *)
Theorem run_agent_workflow_statuses (entries : list (string * pyval)) (st : St) :
  match dict_lookup "userId" entries with
  | None =>
      run_agent_workflow orchestrator_run (VDict entries) st
      = (Returned (VDict [("error", VStr "userId is required")], 400), st)
  | Some user_id =>
      if truthy user_id
      then match orchestrator_run user_id st with
           | (Returned result, st') =>
               run_agent_workflow orchestrator_run (VDict entries) st
               = (Returned (result, 200), st')
           | (Raised error, st') =>
               run_agent_workflow orchestrator_run (VDict entries) st
               = (Returned (VDict [("error", VStr (exc_message error))], 500), st')
           end
      else run_agent_workflow orchestrator_run (VDict entries) st
           = (Returned (VDict [("error", VStr "userId is required")], 400), st)
  end.
Proof.
  unfold run_agent_workflow, py_get.
  destruct (dict_lookup "userId" entries) as [user_id|]; [|reflexivity].
  destruct (truthy user_id); [|reflexivity].
  cbn [negb]. unfold Body_try_except, Body.bind.
  destruct (orchestrator_run user_id st) as [[result|error] st']; reflexivity.
Qed.

End Handler.

(** ** The built pipeline, end to end *)

Section BuiltEffects.
Context (lib : PythonLib).

Lemma nonempty_truthy (text : string) : text <> "" -> opt_str_truthy (Some text) = true.
Proof.
  intros Hne. cbn. destruct (String.eqb_spec text ""); [contradiction|reflexivity].
Qed.

(** A full run of the built pipeline and what it leaves behind. *)
Lemma built_execute_effects (user_id : Z) (st st_f : Store)
    (user : User) (client_id api_key : string) (data : pyval) :
  _users (storage st) !! user_id = Some user ->
  snapchat_client_id user = Some client_id -> client_id <> "" ->
  snapchat_api_key user = Some api_key -> api_key <> "" ->
  fetch_snapchat_data lib client_id api_key st = (Returned data, st_f) ->
  loads_content lib (str_encode lib (json_dumps lib data)) = Returned data ->
  (forall text, In text insights_pool ->
     bytes_decode lib (str_encode lib text) = Returned text) ->
  exists insight st',
    Traced.forget
      (execute (OrchestratorAgent_agent lib (OrchestratorAgent_init lib)) user_id) st
      = (Returned {| snapchatData := data; insights := insight |}, st') /\
    In insight insights_pool /\
    storage st' =
      {| _users := _users (storage st);
         _snapchat_data := <[user_id := data]> (_snapchat_data (storage st));
         _ai_insights := <[user_id := insight]> (_ai_insights (storage st)) |} /\
    artifacts st' =
      artifacts st ++
      [data_artifact lib user_id data;
       insight_artifact lib (artifact_name (data_artifact lib user_id data)) insight] /\
    length (log_records st') = (length (log_records st) + 14)%nat.
Proof.
  intros Huser Hid Hid_ne Hkey Hkey_ne Hfetch Hjson Htext.
  set (st1 := log_start "OrchestratorAgent" st).
  set (sA := log_start "SnapchatDataFetcherAgent" st1).
  (* Fetch *)
  assert (opt_str_truthy (snapchat_client_id user) = true) as Hid_t
    by (rewrite Hid; apply nonempty_truthy; exact Hid_ne).
  assert (opt_str_truthy (snapchat_api_key user) = true) as Hkey_t
    by (rewrite Hkey; apply nonempty_truthy; exact Hkey_ne).
  destruct (fetcher_run_effects lib user_id sA user Huser Hid_t Hkey_t)
    as (data' & st_f' & Hfetch' & Hadv_f & Hfetcher).
  rewrite Hid, Hkey in Hfetch'. cbn [str_value] in Hfetch'.
  assert (data' = data /\ log_records st_f' = log_records sA) as [-> Hlog_f].
  { change sA with (with_log (log_records sA) st) in Hfetch' at 1.
    rewrite (log_blind_fetch_snapchat_data lib), Hfetch in Hfetch'.
    injection Hfetch' as <- <-. split; reflexivity. }
  set (a1 := data_artifact lib user_id data) in *.
  pose proof (stage_logging_plugin_returned Fetch
                (snapchat_fetcher (OrchestratorAgent_init lib)) user_id st1 _ _
                eq_refl Hfetcher) as Hstage1.
  set (sB := log_end (class_name (snapchat_fetcher (OrchestratorAgent_init lib)))
               (with_artifact a1 st_f')) in *.
  (* Analysis *)
  destruct (analyzer_run_effects lib a1 data (log_start "DataAnalysisAgent" sB) Hjson)
    as (insight & st_g & _ & Hin & Hadv_g & Hanalyzer).
  set (a2 := insight_artifact lib (artifact_name a1) insight) in *.
  pose proof (stage_logging_plugin_returned Analysis
                (data_analyzer (OrchestratorAgent_init lib)) a1 sB _ _
                eq_refl Hanalyzer) as Hstage2.
  set (sD := log_end (class_name (data_analyzer (OrchestratorAgent_init lib)))
               (with_artifact a2 st_g)) in *.
  pose proof (insights_pool_nonempty insight Hin) as Hne.
  (* Validation, Safety, Evaluation, Persistence *)
  assert (forall st0 : Store,
            TestAgent_run (data, VStr insight) st0 = (Returned true, st0)) as Htest.
  { intros st0.
    destruct (fetch_snapchat_data_shape lib _ _ _ _ _ Hfetch) as [rest ->].
    rewrite TestAgent_run_dict. cbn.
    destruct (String.eqb_spec insight ""); [contradiction|reflexivity]. }
  pose proof (stage_logging_plugin_returned Validation
                (test_agent (OrchestratorAgent_init lib)) (data, VStr insight)
                sD _ true eq_refl (Htest _)) as Hstage3.
  set (sE := log_end "TestAgent" (log_start "TestAgent" sD)) in *.
  pose proof (stage_logging_plugin_returned Safety
                (safety_agent (OrchestratorAgent_init lib)) (data, VStr insight)
                sE _ true eq_refl eq_refl) as Hstage4.
  set (sF := log_end "SafetyAgent" (log_start "SafetyAgent" sE)) in *.
  pose proof (stage_logging_plugin_returned Evaluation
                (evaluation_agent (OrchestratorAgent_init lib)) insight
                sF _ true eq_refl eq_refl) as Hstage5.
  set (sG := log_end "EvaluationAgent" (log_start "EvaluationAgent" sF)) in *.
  pose proof (stage_logging_plugin_returned Persistence
                (database_agent (OrchestratorAgent_init lib))
                (user_id, data, insight) sG
                (snd (DatabaseAgent_run (user_id, data, insight)
                        (log_start "DatabaseAgent" sG))) true
                eq_refl eq_refl) as Hstage6.
  set (sH := log_end (class_name (database_agent (OrchestratorAgent_init lib)))
               (snd (DatabaseAgent_run (user_id, data, insight)
                       (log_start "DatabaseAgent" sG)))) in *.
  (* The run *)
  assert (OrchestratorAgent_run lib (OrchestratorAgent_init lib) user_id st1
          = (Returned {| snapchatData := data; insights := insight |}, sH,
             all_stages_returned)) as Hrun.
  { unfold OrchestratorAgent_run.
    rewrite (Traced_bind_returned _ _ _ _ _ _ Hstage1).
    rewrite (Traced_bind_returned _ _ _ _ _ _ Hstage2).
    unfold Traced.bind at 1, Traced.call at 1, parse_snapchat_artifact at 1.
    cbn [artifact_content a1 data_artifact]. rewrite Hjson. unfold Body.ret at 1.
    unfold Traced.bind at 1, Traced.call at 1, decode_content at 1.
    cbn [artifact_content a2 insight_artifact]. rewrite (Htext insight Hin).
    unfold Body.ret at 1.
    rewrite (Traced_bind_returned _ _ _ _ _ _ Hstage3).
    rewrite (Traced_bind_returned _ _ _ _ _ _ Hstage4).
    rewrite (Traced_bind_returned _ _ _ _ _ _ Hstage5).
    rewrite (Traced_bind_returned _ _ _ _ _ _ Hstage6).
    unfold Traced.ret. reflexivity. }
  exists insight, (log_end "OrchestratorAgent" sH).
  split; [|split; [exact Hin|]].
  { unfold Traced.forget. rewrite execute_logging_plugin by reflexivity.
    cbn [OrchestratorAgent_agent run class_name]. unfold Traced.forget.
    fold st1. rewrite Hrun. reflexivity. }
  destruct Hadv_f as (Hsto_f & Harts_f & _ & _).
  destruct Hadv_g as (Hsto_g & Harts_g & Hlog_g & _).
  split; [|split].
  - cbn. rewrite Hsto_g. cbn. rewrite Hsto_f. reflexivity.
  - cbn. rewrite Harts_g. cbn. rewrite Harts_f. cbn. rewrite <- app_assoc. reflexivity.
  - cbn. rewrite !length_app, Hlog_g. cbn. rewrite !length_app, Hlog_f. cbn.
    rewrite !length_app. cbn. lia.
Qed.

(** X19: a successful run of the built pipeline leaves both values in
    storage under the subject's id, leaves every other entry and the
    user directory alone, adds exactly two artifacts (the data
    artifact, then the insight artifact named after it) and writes 14
    log records. *)
Theorem full_run_effects (user_id : Z) (st st_f : Store)
    (user : User) (client_id api_key : string) (data : pyval) :
  _users (storage st) !! user_id = Some user ->
  snapchat_client_id user = Some client_id -> client_id <> "" ->
  snapchat_api_key user = Some api_key -> api_key <> "" ->
  fetch_snapchat_data lib client_id api_key st = (Returned data, st_f) ->
  loads_content lib (str_encode lib (json_dumps lib data)) = Returned data ->
  (forall text, In text insights_pool ->
     bytes_decode lib (str_encode lib text) = Returned text) ->
  exists insight st' trace,
    execute (OrchestratorAgent_agent lib (OrchestratorAgent_init lib)) user_id st
      = (Returned {| snapchatData := data; insights := insight |}, st', trace) /\
    get_snapchat_data user_id (storage st') = (Returned (Some data), storage st') /\
    get_ai_insight user_id (storage st') = (Returned (Some insight), storage st') /\
    (forall other, other <> user_id ->
       _snapchat_data (storage st') !! other = _snapchat_data (storage st) !! other /\
       _ai_insights (storage st') !! other = _ai_insights (storage st) !! other) /\
    _users (storage st') = _users (storage st) /\
    artifacts st' =
      artifacts st ++
      [data_artifact lib user_id data;
       insight_artifact lib (artifact_name (data_artifact lib user_id data)) insight] /\
    length (log_records st') = (length (log_records st) + 14)%nat.
Proof.
  intros Huser Hid Hid_ne Hkey Hkey_ne Hfetch Hjson Htext.
  destruct (built_execute_effects user_id st st_f user client_id api_key data
              Huser Hid Hid_ne Hkey Hkey_ne Hfetch Hjson Htext)
    as (insight & st' & Hexec & _ & Hsto & Harts & Hlog).
  unfold Traced.forget in Hexec.
  destruct (execute (OrchestratorAgent_agent lib (OrchestratorAgent_init lib)) user_id st)
    as [[o s] trace]. injection Hexec as -> ->.
  exists insight, st', trace. split; [reflexivity|].
  unfold get_snapchat_data, get_ai_insight. rewrite Hsto. cbn.
  rewrite !lookup_insert_eq. split; [reflexivity|]. split; [reflexivity|].
  split; [|split; [reflexivity|split; assumption]].
  intros other Hne. rewrite !lookup_insert_ne by congruence. split; reflexivity.
Qed.

(** [execute] of the built pipeline without usable credentials. *)
Lemma built_execute_missing (user_id : Z) (st : Store) :
  credentials_missing st user_id ->
  Traced.forget
    (execute (OrchestratorAgent_agent lib (OrchestratorAgent_init lib)) user_id) st
  = (Raised (MissingCredentials user_id),
     log_error "OrchestratorAgent" (MissingCredentials user_id)
       (log_error "SnapchatDataFetcherAgent" (MissingCredentials user_id)
          (log_start "SnapchatDataFetcherAgent" (log_start "OrchestratorAgent" st)))).
Proof.
  intros Hmissing. unfold Traced.forget at 1.
  rewrite execute_logging_plugin by reflexivity.
  cbn [OrchestratorAgent_agent run class_name].
  unfold Traced.forget, OrchestratorAgent_run, Traced.bind, stage.
  rewrite execute_logging_plugin by reflexivity.
  cbn [snapchat_fetcher OrchestratorAgent_init add_plugin new_agent run class_name].
  rewrite (SnapchatDataFetcherAgent_run_missing lib) by exact Hmissing.
  reflexivity.
Qed.

Lemma main_exit_code_aux (user_id : Z) (st : Store) :
  match Traced.forget
          (execute (OrchestratorAgent_agent lib (OrchestratorAgent_init lib)) user_id)
          st with
  | (Returned _, st') => main lib user_id false st = (Returned 0, st')
  | (Raised _, st') => main lib user_id false st = (Returned 1, st')
  end.
Proof.
  unfold main, Body_try_except, Body.bind, Body.ret. cbv beta iota.
  destruct (Traced.forget
              (execute (OrchestratorAgent_agent lib (OrchestratorAgent_init lib)) user_id)
              st) as [[bundle|error] st']; reflexivity.
Qed.

Lemma main_exit_code_setup_aux (user_id : Z) (st : Store) :
  match Traced.forget
          (execute (OrchestratorAgent_agent lib (OrchestratorAgent_init lib)) user_id)
          (set_user user_id (test_user_for user_id) st) with
  | (Returned _, st') => main lib user_id true st = (Returned 0, st')
  | (Raised _, st') => main lib user_id true st = (Returned 1, st')
  end.
Proof.
  unfold main, Body_try_except, Body.bind, Body.ret, setup_test_user.
  cbv beta iota zeta.
  change (set_user user_id _ st) with (set_user user_id (test_user_for user_id) st).
  destruct (Traced.forget
              (execute (OrchestratorAgent_agent lib (OrchestratorAgent_init lib)) user_id)
              (set_user user_id (test_user_for user_id) st)) as [[bundle|error] st'];
    reflexivity.
Qed.

(** X20: [main] never raises: it returns exit code 0 when the
    orchestrator's [execute] returns and 1 when it raises, in the state
    the run left. *)
Theorem main_exit_code (user_id : Z) (setup_user : bool) (st : Store) :
  let start := if setup_user then set_user user_id (test_user_for user_id) st else st in
  match Traced.forget
          (execute (OrchestratorAgent_agent lib (OrchestratorAgent_init lib)) user_id)
          start with
  | (Returned _, st') => main lib user_id setup_user st = (Returned 0, st')
  | (Raised _, st') => main lib user_id setup_user st = (Returned 1, st')
  end.
Proof.
  destruct setup_user; cbn zeta.
  - apply main_exit_code_setup_aux.
  - apply main_exit_code_aux.
Qed.

(** X21: without [--setup-test-user], [main] for a subject that has no
    usable credentials exits with code 1 and has written nothing: the
    storage service and the artifact store are unchanged. *)
Theorem main_without_credentials (user_id : Z) (st : Store) :
  credentials_missing st user_id ->
  exists st',
    main lib user_id false st = (Returned 1, st') /\
    storage st' = storage st /\
    artifacts st' = artifacts st.
Proof.
  intros Hmissing.
  pose proof (main_exit_code_aux user_id st) as Hmain.
  rewrite (built_execute_missing user_id st Hmissing) in Hmain.
  eexists. split; [exact Hmain|]. split; reflexivity.
Qed.

(** X22: with [--setup-test-user], [main] replaces whatever record the
    subject had by the test record, so the run cannot fail for missing
    credentials: it exits with code 0 and the fetched data and an
    insight are in storage afterwards. *)
Theorem main_with_setup_succeeds (user_id : Z) (st st_f : Store) (data : pyval) :
  fetch_snapchat_data lib "test_client_id" "test_api_key"
    (set_user user_id (test_user_for user_id) st) = (Returned data, st_f) ->
  loads_content lib (str_encode lib (json_dumps lib data)) = Returned data ->
  (forall text, In text insights_pool ->
     bytes_decode lib (str_encode lib text) = Returned text) ->
  exists insight st',
    main lib user_id true st = (Returned 0, st') /\
    In insight insights_pool /\
    _users (storage st') !! user_id = Some (test_user_for user_id) /\
    _snapchat_data (storage st') !! user_id = Some data /\
    _ai_insights (storage st') !! user_id = Some insight.
Proof.
  intros Hfetch Hjson Htext.
  assert (_users (storage (set_user user_id (test_user_for user_id) st)) !! user_id
          = Some (test_user_for user_id)) as Huser
    by (cbn [set_user storage _users]; apply lookup_insert_eq).
  assert ("test_client_id" <> "") as Hid_ne by discriminate.
  assert ("test_api_key" <> "") as Hkey_ne by discriminate.
  destruct (built_execute_effects user_id (set_user user_id (test_user_for user_id) st)
              st_f (test_user_for user_id) "test_client_id" "test_api_key" data
              Huser eq_refl Hid_ne eq_refl Hkey_ne Hfetch Hjson Htext)
    as (insight & st' & Hexec & Hin & Hsto & _ & _).
  pose proof (main_exit_code_setup_aux user_id st) as Hmain.
  rewrite Hexec in Hmain.
  exists insight, st'. split; [exact Hmain|]. split; [exact Hin|].
  rewrite Hsto. cbn [_users _snapchat_data _ai_insights set_user storage].
  rewrite !lookup_insert_eq. repeat split.
Qed.

End BuiltEffects.

Lemma reference_roundtrip_pool (text : string) :
  In text insights_pool ->
  bytes_decode Reference.lib (str_encode Reference.lib text) = Returned text.
Proof.
  intros Hin. unfold insights_pool in Hin. cbn [In] in Hin.
  repeat (destruct Hin as [<- | Hin]; [vm_compute; reflexivity|]).
  contradiction.
Defined.

Lemma full_run_effects_witness :
  exists insight st' trace,
    execute (OrchestratorAgent_agent Reference.lib reference_pipeline) 1 test_store
      = (Returned {| snapchatData := test_upstream_data; insights := insight |},
         st', trace) /\
    get_snapchat_data 1 (storage st') = (Returned (Some test_upstream_data), storage st') /\
    get_ai_insight 1 (storage st') = (Returned (Some insight), storage st') /\
    (forall other, other <> 1 ->
       _snapchat_data (storage st') !! other = _snapchat_data (storage test_store) !! other /\
       _ai_insights (storage st') !! other = _ai_insights (storage test_store) !! other) /\
    _users (storage st') = _users (storage test_store) /\
    artifacts st' =
      artifacts test_store ++
      [data_artifact Reference.lib 1 test_upstream_data;
       insight_artifact Reference.lib
         (artifact_name (data_artifact Reference.lib 1 test_upstream_data)) insight] /\
    length (log_records st') = (length (log_records test_store) + 14)%nat.
Proof.
  apply (full_run_effects Reference.lib 1 test_store
           (snd (fetch_snapchat_data Reference.lib "test_client_id" "test_api_key"
                   test_store))
           test_user "test_client_id" "test_api_key" test_upstream_data).
  - vm_compute. reflexivity.
  - reflexivity.
  - discriminate.
  - reflexivity.
  - discriminate.
  - unfold test_upstream_data.
    destruct (fetch_snapchat_data Reference.lib "test_client_id" "test_api_key" test_store)
      as [[data|error] st_f] eqn:Hfetch; [reflexivity|].
    vm_compute in Hfetch. discriminate Hfetch.
  - vm_compute. reflexivity.
  - exact reference_roundtrip_pool.
Defined.

Lemma main_without_credentials_witness :
  credentials_missing keyless_store 7 /\
  exists st',
    main Reference.lib 7 false keyless_store = (Returned 1, st') /\
    storage st' = storage keyless_store /\
    artifacts st' = artifacts keyless_store.
Proof.
  assert (credentials_missing keyless_store 7) as Hmissing.
  { vm_compute. right. left. reflexivity. }
  split; [exact Hmissing|].
  exact (main_without_credentials Reference.lib 7 keyless_store Hmissing).
Defined.

Lemma main_with_setup_succeeds_witness :
  exists insight st',
    main Reference.lib 7 true keyless_store = (Returned 0, st') /\
    In insight insights_pool /\
    _users (storage st') !! 7 = Some (test_user_for 7) /\
    _snapchat_data (storage st') !! 7 = Some test_upstream_data /\
    _ai_insights (storage st') !! 7 = Some insight.
Proof.
  apply (main_with_setup_succeeds Reference.lib 7 keyless_store
           (snd (fetch_snapchat_data Reference.lib "test_client_id" "test_api_key"
                   (set_user 7 (test_user_for 7) keyless_store)))
           test_upstream_data).
  - destruct (fetch_snapchat_data Reference.lib "test_client_id" "test_api_key"
                (set_user 7 (test_user_for 7) keyless_store))
      as [[data|error] st_f] eqn:Hfetch;
      [|vm_compute in Hfetch; discriminate Hfetch].
    cbn [snd]. f_equal. f_equal.
    assert (fst (fetch_snapchat_data Reference.lib "test_client_id" "test_api_key"
                   (set_user 7 (test_user_for 7) keyless_store))
            = Returned test_upstream_data) as Hfst by (vm_compute; reflexivity).
    rewrite Hfetch in Hfst. cbn [fst] in Hfst.
    exact (f_equal (fun o => match o with Returned d => d | Raised _ => data end) Hfst).
  - vm_compute. reflexivity.
  - exact reference_roundtrip_pool.
Defined.

(** ** The agent-service workflow *)

Section AgentServiceFacts.
Context {St : Type}.
Context (storage_get_user : Z -> Body St (option (list pyval)))
        (storage_save_snapchat_data : Z -> pyval -> Body St unit)
        (storage_save_ai_insight : Z -> pyval -> Body St unit)
        (generate_ai_insight : pyval -> Body St pyval).

(** X23: the agent-service workflow never gets past its first step.
    [get_user] hands back what [fetchone] returned, and the fetch agent
    reads the credentials off it as attributes: for a subject without a
    row the run raises "Snapchat credentials not found", for a subject
    with a row it raises [AttributeError], and a database error comes
    out as it is.  Whatever the database answers, the run raises in the
    state [get_user] left, and no write to storage is ever called. *)
Theorem workflow_never_writes (user_id : Z) (st : St) :
  exists error st',
    AgentService.OrchestratorAgent_run storage_get_user storage_save_snapchat_data
      storage_save_ai_insight generate_ai_insight user_id st
    = (Raised error, st', []) /\
    match storage_get_user user_id st with
    | (Raised db_error, st1) => error = db_error /\ st' = st1
    | (Returned None, st1) | (Returned (Some []), st1) =>
        error = AgentService.credentials_not_found user_id /\ st' = st1
    | (Returned (Some (_ :: _)), st1) =>
        error = Exc AttributeError
                  "'tuple' object has no attribute 'snapchat_client_id'" /\
        st' = st1
    end.
Proof.
  unfold AgentService.OrchestratorAgent_run, AgentService.SnapchatDataFetcherAgent_run.
  unfold Traced.bind at 1. unfold Traced.bind at 1. unfold Traced.call at 1.
  destruct (storage_get_user user_id st) as [[[[|column columns]|]|db_error] st1];
    eexists _, _; (split; [reflexivity|split; reflexivity]).
Qed.

End AgentServiceFacts.
